(** * MCP demonstration servers and client: a shallow embedding

    The repository holds three Python modules:

    - [calculator_client.py], whose [extract_tool_result] unwraps the response
      envelopes of the tool-serving framework;
    - [calculator_server.py], four arithmetic tools on floats and the prompt
      that asks for an expression to be evaluated with them;
    - [data_processor_server.py], lookups over a fixed in-memory store.

    The Python code is embedded as Rocq functions.  Python values are the
    inductive [pyval]; statements are computations in the [outcome] monad,
    which keeps apart normal completion, an executed [return] and a raised
    exception, so that [try]/[except] blocks and early returns are written
    the way the source has them.  Calls to [logger] and to [asyncio.sleep]
    neither change a value nor raise, and are left out. *)

From Stdlib Require Import ZArith List String Ascii Bool Lia DecimalString.
From Corelib Require Import PrimFloat SpecFloat FloatOps.
Import ListNotations.

Set Warnings "-inexact-float,-register-all".

Local Open Scope string_scope.
Local Open Scope Z_scope.

(** ** Python strings *)

(** A Python [str] is modelled as a Rocq [string]; the model is exact on
    ASCII text, which is all the stores and the messages of the source hold
    (a character beyond ASCII is kept as the bytes of its encoding and is
    left alone by [lower]). *)
Module PyStr.

Definition lower_char (c : ascii) : ascii :=
  let n := nat_of_ascii c in
  if (Nat.leb 65 n && Nat.leb n 90)%bool then ascii_of_nat (n + 32) else c.

(** [s.lower()] on ASCII text, where it changes the letters [A] to [Z] and
    nothing else; on text beyond ASCII [str.lower] follows Unicode, which
    this function does not, so a statement that lowers text other than that
    of the source says so in a hypothesis. *)
Fixpoint lower (s : string) : string :=
  match s with
  | EmptyString => EmptyString
  | String c s' => String (lower_char c) (lower s')
  end.

(** [s.startswith(p)] *)
Fixpoint startswith (p s : string) : bool :=
  match p, s with
  | EmptyString, _ => true
  | String _ _, EmptyString => false
  | String a p', String b s' => (Ascii.eqb a b && startswith p' s')%bool
  end.

(** [needle in hay] on two strings: [needle] occurs in [hay] as a run of
    consecutive characters. *)
Fixpoint contains (needle hay : string) : bool :=
  (startswith needle hay
   || match hay with
      | EmptyString => false
      | String _ hay' => contains needle hay'
      end)%bool.

(** [str(z)] for an [int]. *)
Definition of_int (z : Z) : string := NilZero.string_of_int (Z.to_int z).

Definition hex_digit (n : nat) : ascii :=
  if Nat.ltb n 10 then ascii_of_nat (48 + n) else ascii_of_nat (87 + n).

Definition squote : ascii := "039"%char.
Definition dquote : ascii := "034"%char.
Definition backslash : ascii := "092"%char.

Fixpoint mem_char (c : ascii) (s : string) : bool :=
  match s with
  | EmptyString => false
  | String d s' => (Ascii.eqb c d || mem_char c s')%bool
  end.

Fixpoint repr_body (q : ascii) (s : string) : string :=
  match s with
  | EmptyString => EmptyString
  | String c s' =>
      let n := nat_of_ascii c in
      let rest := repr_body q s' in
      if (Ascii.eqb c q || Ascii.eqb c backslash)%bool then
        String backslash (String c rest)
      else if Nat.eqb n 9 then String backslash (String "t" rest)
      else if Nat.eqb n 10 then String backslash (String "n" rest)
      else if Nat.eqb n 13 then String backslash (String "r" rest)
      else if (Nat.ltb n 32 || Nat.eqb n 127)%bool then
        String backslash
          (String "x" (String (hex_digit (n / 16)) (String (hex_digit (n mod 16)) rest)))
      else String c rest
  end.

(** [repr(s)]: single quotes, unless [s] holds a single quote and no double
    quote. *)
Definition repr (s : string) : string :=
  let q := if (mem_char squote s && negb (mem_char dquote s))%bool
           then dquote else squote in
  String q (repr_body q s ++ String q EmptyString).

End PyStr.

(** ** Exceptions *)

Module Exc.

(** The exception classes the three modules raise, catch or meet.  Every
    class here derives from [Exception]; the classes that only derive from
    [BaseException] (interpreter exit, keyboard interrupt) are not errors of
    a call and are not modelled. *)
Inductive exc_class : Type :=
| Exception
| ValueError
| JSONDecodeError
| TypeError
| AttributeError
| KeyError
| IndexError
| ZeroDivisionError
| OverflowError
| RuntimeError.

Definition exc_class_eqb (c d : exc_class) : bool :=
  match c, d with
  | Exception, Exception | ValueError, ValueError
  | JSONDecodeError, JSONDecodeError | TypeError, TypeError
  | AttributeError, AttributeError | KeyError, KeyError
  | IndexError, IndexError | ZeroDivisionError, ZeroDivisionError
  | OverflowError, OverflowError | RuntimeError, RuntimeError => true
  | _, _ => false
  end.

(** [issubclass c base]: Python's class hierarchy restricted to the classes
    above.  [json.JSONDecodeError] derives from [ValueError]. *)
Definition issubclass (c base : exc_class) : bool :=
  match base with
  | Exception => true
  | ValueError =>
      match c with ValueError | JSONDecodeError => true | _ => false end
  | _ => exc_class_eqb c base
  end.

(** An exception object: its class and the text [str(e)] gives. *)
Record exn : Type := mk_exn { exn_class : exc_class; exn_msg : string }.

(** The exception object [cls(arg)]: [str] of a [KeyError] is the [repr] of
    its argument, [str] of another exception is the argument. *)
Definition new_exn (c : exc_class) (arg : string) : exn :=
  match c with
  | KeyError => mk_exn KeyError (PyStr.repr arg)
  | _ => mk_exn c arg
  end.

(** [except (c1, c2, ...)] matches an exception of a subclass of one of them. *)
Definition matches (classes : list exc_class) (e : exn) : bool :=
  existsb (issubclass (exn_class e)) classes.

End Exc.
Export Exc.

(** ** Statements and expressions *)

(** What running a block of statements of a function whose result type is [R]
    comes to: it completes with a value, executes [return r], or raises. *)
Inductive outcome (R A : Type) : Type :=
| Normal (a : A)
| Returned (r : R)
| Raised (e : exn).

Arguments Normal {R A} a.
Arguments Returned {R A} r.
Arguments Raised {R A} e.

(** What a call comes to. *)
Inductive result (R : Type) : Type :=
| Ok (r : R)
| Err (e : exn).

Arguments Ok {R} r.
Arguments Err {R} e.

Definition bind {R A B : Type} (c : outcome R A) (k : A -> outcome R B)
  : outcome R B :=
  match c with
  | Normal a => k a
  | Returned r => Returned r
  | Raised e => Raised e
  end.

Declare Scope py_scope.
Delimit Scope py_scope with py.

Notation "x <- c ;; k" := (bind c (fun x => k))
  (at level 61, c at next level, right associativity) : py_scope.
Notation "c ;; k" := (bind c (fun _ => k))
  (at level 61, right associativity) : py_scope.

Definition pass {R : Type} : outcome R unit := Normal tt.
Definition return_ {R A : Type} (r : R) : outcome R A := Returned r.
(** [raise cls(arg)] *)
Definition raise {R A : Type} (c : exc_class) (arg : string) : outcome R A :=
  Raised (new_exn c arg).
Definition reraise {R A : Type} (e : exn) : outcome R A := Raised e.

(** [try: body / except classes as e: handler e]. *)
Definition try_except {R A : Type} (body : outcome R A)
    (classes : list exc_class) (handler : exn -> outcome R A) : outcome R A :=
  match body with
  | Raised e => if matches classes e then handler e else Raised e
  | other => other
  end.

(** [try] with two [except] clauses: the first clause that matches handles
    the exception; an exception raised by a handler is not handled again. *)
Definition try_except2 {R A : Type} (body : outcome R A)
    (classes1 : list exc_class) (handler1 : exn -> outcome R A)
    (classes2 : list exc_class) (handler2 : exn -> outcome R A)
  : outcome R A :=
  match body with
  | Raised e =>
      if matches classes1 e then handler1 e
      else if matches classes2 e then handler2 e
      else Raised e
  | other => other
  end.

(** A function body to the result of its call.  A body that completes
    without [return] is not used in this development: every function of the
    source ends each path in [return] or [raise], so the body is typed with
    the empty type for normal completion. *)
Definition def {R : Type} (body : outcome R Empty_set) : result R :=
  match body with
  | Normal a => match a with end
  | Returned r => Ok r
  | Raised e => Err e
  end.

(** A call made inside a block. *)
Definition call {R S : Type} (c : result S) : outcome R S :=
  match c with
  | Ok r => Normal r
  | Err e => Raised e
  end.

(** ** Python numbers *)

(** An [int] is a [Z]; a [float] is the kernel's binary64 [float], whose
    operations are the IEEE 754 ones Python's are. *)
Module PyNum.

(** The double nearest to an integer (ties to even); infinite beyond the
    range. *)
Definition float_of_Z (z : Z) : float :=
  SF2Prim (binary_normalize prec emax z 0 false).

(** The double nearest to the fraction [n / d]. *)
Definition float_of_ratio (n : Z) (d : positive) : float :=
  match n with
  | Z0 => zero
  | Zpos p => SF2Prim (SFdiv prec emax (S754_finite false p 0) (S754_finite false d 0))
  | Zneg p => SF2Prim (SFdiv prec emax (S754_finite true p 0) (S754_finite false d 0))
  end.

Definition signed_zero (neg : bool) : float := if neg then neg_zero else zero.

(** The number of binary digits of a positive integer. *)
Definition bits (m : Z) : Z := Z.log2 m + 1.

(** The double nearest to [m * 10^e10] for a decimal mantissa [m >= 0], with
    the sign [neg]: what [float] makes of a decimal literal.  Beyond
    [10^400] the value is infinite and below [10^-1200] it is zero, so the
    powers of ten are not computed there. *)
Definition float_of_decimal (neg : bool) (m e10 : Z) : float :=
  let pos :=
    if m =? 0 then zero
    else if 400 <? e10 then infinity
    else if e10 + bits m <? -1200 then zero
    else if 0 <=? e10 then float_of_Z (m * 10 ^ e10)
    else float_of_ratio m (Z.to_pos (10 ^ (- e10))) in
  if neg then (- pos)%float else pos.

(** [float(z)] for an [int]: [OverflowError] when no finite double is near. *)
Definition float_of_int {R : Type} (z : Z) : outcome R float :=
  let f := float_of_Z z in
  if is_infinity f then raise OverflowError "int too large to convert to float"
  else Normal f.

(** [f == z] for a [float] and an [int]: Python compares the exact values. *)
Definition float_eqb_Z (f : float) (z : Z) : bool :=
  match Prim2SF f with
  | S754_zero _ => z =? 0
  | S754_finite s m e =>
      let v := if s then Zneg m else Zpos m in
      if 0 <=? e then z =? v * 2 ^ e
      else ((v mod 2 ^ (- e) =? 0) && (z =? v / 2 ^ (- e)))%bool
  | _ => false
  end.

(** [n / d] rounded to the nearest integer, ties to the even one ([d > 0]). *)
Definition div_half_even (n d : Z) : Z :=
  let q := n / d in
  let r := n mod d in
  match 2 * r ?= d with
  | Lt => q
  | Gt => q + 1
  | Eq => if Z.even q then q else q + 1
  end.

(** [round(f, ndigits)] for [ndigits >= 0]: the exact value of [f] is rounded
    to [ndigits] decimals, ties to even, and the double nearest to that
    decimal is returned; zeros, infinities and NaN round to themselves. *)
Definition round (f : float) (ndigits : nat) : float :=
  match Prim2SF f with
  | S754_finite s m e =>
      if 0 <=? e then f
      else
        let scale := 10 ^ Z.of_nat ndigits in
        let k := div_half_even (Zpos m * scale) (2 ^ (- e)) in
        if k =? 0 then signed_zero s
        else float_of_ratio (if s then - k else k) (Z.to_pos scale)
  | _ => f
  end.

(** [int(f)] for a [float]: truncation towards zero. *)
Definition trunc {R : Type} (f : float) : outcome R Z :=
  match Prim2SF f with
  | S754_zero _ => Normal 0
  | S754_finite s m e =>
      let a := if 0 <=? e then Zpos m * 2 ^ e else Zpos m / 2 ^ (- e) in
      Normal (if s then - a else a)
  | S754_infinity _ =>
      raise OverflowError "cannot convert float infinity to integer"
  | S754_nan => raise ValueError "cannot convert float NaN to integer"
  end.

(** The sum of floats as CPython computes it from version 3.12 on: the
    rounding errors of the additions are accumulated in [c] and added at the
    end (Neumaier). *)
Fixpoint compensated_sum (total c : float) (xs : list float) : float :=
  match xs with
  | [] =>
      if (negb (PrimFloat.eqb c zero) && is_finite c)%bool
      then (total + c)%float else total
  | x :: xs' =>
      let t := (total + x)%float in
      let c' :=
        if PrimFloat.leb (abs x) (abs total)
        then (c + ((total - t) + x))%float
        else (c + ((x - t) + total))%float in
      compensated_sum t c' xs'
  end.

End PyNum.

(** ** Python values *)

(** The values the three modules handle: the data of JSON documents and of
    the stores ([None], booleans, numbers, strings, lists, dictionaries with
    string keys); objects, each the name of its class and the attributes it
    exposes (the response envelopes of the framework and their content
    items); and callables of no argument (the [json] accessor of a content
    item): [PFunc ret] returns [ret] when called, [PFuncRaise e] raises
    [e]. *)
Inductive pyval : Type :=
| PNone
| PBool (b : bool)
| PInt (z : Z)
| PFloat (f : float)
| PStr (s : string)
| PList (items : list pyval)
| PDict (entries : list (string * pyval))
| PObject (cls : string) (attrs : list (string * pyval))
| PFunc (ret : pyval)
| PFuncRaise (e : exn).

(** Documents as [json.loads] produces them: plain data only. *)
Inductive json : Type :=
| JNull
| JBool (b : bool)
| JInt (z : Z)
| JFloat (f : float)
| JStr (s : string)
| JArr (items : list json)
| JObj (entries : list (string * json)).

Fixpoint of_json (j : json) : pyval :=
  match j with
  | JNull => PNone
  | JBool b => PBool b
  | JInt z => PInt z
  | JFloat f => PFloat f
  | JStr s => PStr s
  | JArr items => PList (map of_json items)
  | JObj entries => PDict (map (fun kv => (fst kv, of_json (snd kv))) entries)
  end.

(** The library functions the client calls on strings, each with the result
    of its call: [json.loads] raises [json.JSONDecodeError] on a text that is
    no JSON document, [float] and [int] raise [ValueError] on a text that is
    no literal. *)
Class PyLib : Type := {
  json_decode : string -> result json;
  float_of_str : string -> result float;
  int_of_str : string -> result Z
}.

Module Py.

Fixpoint lookup {A : Type} (k : string) (l : list (string * A)) : option A :=
  match l with
  | [] => None
  | (k', v) :: l' => if String.eqb k' k then Some v else lookup k l'
  end.

Definition has_key {A : Type} (k : string) (l : list (string * A)) : bool :=
  match lookup k l with Some _ => true | None => false end.

(** [d[k] = v] on the entries of a dictionary: the value of an existing key
    is replaced where it stands, a new key goes last. *)
Fixpoint dict_set (k : string) (v : pyval) (d : list (string * pyval))
  : list (string * pyval) :=
  match d with
  | [] => [(k, v)]
  | (k', v') :: d' =>
      if String.eqb k' k then (k', v) :: d' else (k', v') :: dict_set k v d'
  end.

(** [type(v).__name__]; the callables of an envelope are bound methods. *)
Definition type_name (v : pyval) : string :=
  match v with
  | PNone => "NoneType"
  | PBool _ => "bool"
  | PInt _ => "int"
  | PFloat _ => "float"
  | PStr _ => "str"
  | PList _ => "list"
  | PDict _ => "dict"
  | PObject cls _ => cls
  | PFunc _ | PFuncRaise _ => "method"
  end.

(** [bool(v)] *)
Definition truthy (v : pyval) : bool :=
  match v with
  | PNone => false
  | PBool b => b
  | PInt z => negb (z =? 0)
  | PFloat f => negb (PrimFloat.eqb f zero)
  | PStr s => negb (String.eqb s "")
  | PList l => match l with [] => false | _ => true end
  | PDict d => match d with [] => false | _ => true end
  | PObject _ _ | PFunc _ | PFuncRaise _ => true
  end.

(** [hasattr(v, name)].  Of a value of a builtin type the source only probes
    the names [content], [text] and [json], which no builtin type has. *)
Definition hasattr (v : pyval) (name : string) : bool :=
  match v with
  | PObject _ attrs => has_key name attrs
  | _ => false
  end.

(** [v.name]: an attribute is a plain value, so reading one runs no code
    and raises nothing but [AttributeError] for a name that is missing. *)
Definition getattr {R : Type} (v : pyval) (name : string) : outcome R pyval :=
  let missing :=
    raise AttributeError
      ("'" ++ type_name v ++ "' object has no attribute '" ++ name ++ "'") in
  match v with
  | PObject _ attrs =>
      match lookup name attrs with
      | Some a => Normal a
      | None => missing
      end
  | _ => missing
  end.

Definition is_None (v : pyval) : bool :=
  match v with PNone => true | _ => false end.

Definition isinstance_str (v : pyval) : bool :=
  match v with PStr _ => true | _ => false end.

Definition callable (v : pyval) : bool :=
  match v with PFunc _ | PFuncRaise _ => true | _ => false end.

(** [f()] *)
Definition call0 {R : Type} (f : pyval) : outcome R pyval :=
  match f with
  | PFunc ret => Normal ret
  | PFuncRaise e => Raised e
  | _ => raise TypeError ("'" ++ type_name f ++ "' object is not callable")
  end.

Definition not_subscriptable {R A : Type} (v : pyval) : outcome R A :=
  raise TypeError ("'" ++ type_name v ++ "' object is not subscriptable").

(** [v[i]] for an [int] index. *)
Definition getitem_index {R : Type} (v : pyval) (i : Z) : outcome R pyval :=
  match v with
  | PList l =>
      let n := Z.of_nat (List.length l) in
      let j := if i <? 0 then i + n else i in
      if ((0 <=? j) && (j <? n))%bool then
        match nth_error l (Z.to_nat j) with
        | Some x => Normal x
        | None => raise IndexError "list index out of range"
        end
      else raise IndexError "list index out of range"
  | PStr s =>
      let n := Z.of_nat (String.length s) in
      let j := if i <? 0 then i + n else i in
      if ((0 <=? j) && (j <? n))%bool then
        match String.get (Z.to_nat j) s with
        | Some c => Normal (PStr (String c EmptyString))
        | None => raise IndexError "string index out of range"
        end
      else raise IndexError "string index out of range"
  | PDict _ => Raised (mk_exn KeyError (PyStr.of_int i))
  | _ => not_subscriptable v
  end.

(** [v[k]] for a [str] key. *)
Definition getitem_key {R : Type} (v : pyval) (k : string) : outcome R pyval :=
  match v with
  | PDict d =>
      match lookup k d with
      | Some x => Normal x
      | None => raise KeyError k
      end
  | PList _ => raise TypeError "list indices must be integers or slices, not str"
  | PStr _ => raise TypeError "string indices must be integers, not 'str'"
  | _ => not_subscriptable v
  end.

(** [d.get(k)] on a dictionary. *)
Definition dict_get (k : string) (d : list (string * pyval)) : pyval :=
  match lookup k d with
  | Some x => x
  | None => PNone
  end.

(** [needle in container] for a [str] needle. *)
Definition str_in {R : Type} (needle : string) (container : pyval)
  : outcome R bool :=
  match container with
  | PStr hay => Normal (PyStr.contains needle hay)
  | PDict d => Normal (has_key needle d)
  | PList l =>
      Normal (existsb (fun x => match x with
                                | PStr s => String.eqb needle s
                                | _ => false
                                end) l)
  | _ => raise TypeError
           ("argument of type '" ++ type_name container ++ "' is not iterable")
  end.

(** [v.lower()] *)
Definition lower {R : Type} (v : pyval) : outcome R pyval :=
  match v with
  | PStr s => Normal (PStr (PyStr.lower s))
  | _ => (f <- getattr v "lower" ;; call0 f)%py
  end.

(** [v == z] for an [int] [z]: equal numbers are equal across [bool], [int]
    and [float]; a value of another type is not equal to an [int]. *)
Definition eq_int (v : pyval) (z : Z) : bool :=
  match v with
  | PBool b => (if b then 1 else 0) =? z
  | PInt y => y =? z
  | PFloat f => PyNum.float_eqb_Z f z
  | _ => false
  end.

Definition dq (s : string) : string :=
  String PyStr.dquote (s ++ String PyStr.dquote EmptyString).

(** [a + b] *)
Definition add {R : Type} (a b : pyval) : outcome R pyval :=
  let unsupported :=
    raise TypeError ("unsupported operand type(s) for +: '" ++ type_name a
                     ++ "' and '" ++ type_name b ++ "'") in
  let int_of (v : pyval) : option Z :=
    match v with
    | PInt z => Some z
    | PBool b => Some (if b then 1 else 0)
    | _ => None
    end in
  match a, b with
  | PFloat x, PFloat y => Normal (PFloat (x + y))
  | PFloat x, (PInt _ | PBool _) =>
      match int_of b with
      | Some z => (y <- PyNum.float_of_int z ;; Normal (PFloat (x + y)))%py
      | None => unsupported
      end
  | (PInt _ | PBool _), PFloat y =>
      match int_of a with
      | Some z => (x <- PyNum.float_of_int z ;; Normal (PFloat (x + y)))%py
      | None => unsupported
      end
  | (PInt _ | PBool _), (PInt _ | PBool _) =>
      match int_of a, int_of b with
      | Some x, Some y => Normal (PInt (x + y))
      | _, _ => unsupported
      end
  | PStr x, PStr y => Normal (PStr (x ++ y))
  | PStr _, _ =>
      raise TypeError ("can only concatenate str (not " ++ dq (type_name b)
                       ++ ") to str")
  | PList x, PList y => Normal (PList (x ++ y)%list)
  | PList _, _ =>
      raise TypeError ("can only concatenate list (not " ++ dq (type_name b)
                       ++ ") to list")
  | _, _ => unsupported
  end.

(** [a / n] for an [int] [n]: true division. *)
Definition truediv_int {R : Type} (a : pyval) (n : Z) : outcome R pyval :=
  let int_div (x : Z) : outcome R pyval :=
    if n =? 0 then raise ZeroDivisionError "division by zero"
    else
      let q :=
        if x =? 0 then PyNum.signed_zero (n <? 0)
        else PyNum.float_of_ratio (if n <? 0 then - x else x)
                                  (Z.to_pos (Z.abs n)) in
      if is_infinity q then
        raise OverflowError "integer division result too large for a float"
      else Normal (PFloat q) in
  match a with
  | PInt x => int_div x
  | PBool b => int_div (if b then 1 else 0)
  | PFloat x =>
      (y <- PyNum.float_of_int n ;;
       if PrimFloat.eqb y zero then raise ZeroDivisionError "float division by zero"
       else Normal (PFloat (x / y)))%py
  | _ => raise TypeError ("unsupported operand type(s) for /: '"
                          ++ type_name a ++ "' and 'int'")
  end.

(** [round(v, ndigits)] for [ndigits >= 0]. *)
Definition round {R : Type} (v : pyval) (ndigits : nat) : outcome R pyval :=
  match v with
  | PFloat f => Normal (PFloat (PyNum.round f ndigits))
  | PInt z => Normal (PInt z)
  | PBool b => Normal (PInt (if b then 1 else 0))
  | _ => raise TypeError ("type " ++ type_name v
                          ++ " doesn't define __round__ method")
  end.

Section WithLibrary.
Context {L : PyLib}.

(** [json.loads(v)] for the values of [pyval]: a string is parsed, any
    other is refused with [TypeError].  ([json.loads] also parses [bytes]
    and [bytearray], which [pyval] does not have.) *)
Definition json_loads {R : Type} (v : pyval) : outcome R pyval :=
  match v with
  | PStr s => (j <- call (json_decode s) ;; Normal (of_json j))%py
  | _ => raise TypeError ("the JSON object must be str, bytes or bytearray, not "
                          ++ type_name v)
  end.

(** [float(v)] *)
Definition float_ {R : Type} (v : pyval) : outcome R pyval :=
  match v with
  | PStr s => (f <- call (float_of_str s) ;; Normal (PFloat f))%py
  | PFloat f => Normal (PFloat f)
  | PInt z => (f <- PyNum.float_of_int z ;; Normal (PFloat f))%py
  | PBool b => Normal (PFloat (if b then one else zero))
  | _ => raise TypeError ("float() argument must be a string or a real number, not '"
                          ++ type_name v ++ "'")
  end.

(** [int(v)] *)
Definition int_ {R : Type} (v : pyval) : outcome R pyval :=
  match v with
  | PStr s => (z <- call (int_of_str s) ;; Normal (PInt z))%py
  | PInt z => Normal (PInt z)
  | PBool b => Normal (PInt (if b then 1 else 0))
  | PFloat f => (z <- PyNum.trunc f ;; Normal (PInt z))%py
  | _ => raise TypeError
           ("int() argument must be a string, a bytes-like object or a real number, not '"
            ++ type_name v ++ "'")
  end.

End WithLibrary.

End Py.

(** ** A reference model of the library functions *)

(** An executable model of [json.loads], [float] and [int] on strings, after
    the grammar CPython 3.11 implements, used to run the client on concrete
    envelopes.  The general theorems about the client hold for every
    [PyLib], so they do not rest on it.  Not modelled: the interpreter's
    limits (recursion depth, the digit limit of [int]) and digits other than
    ASCII. *)
Module RefLib.

Definition nat_of (c : ascii) : nat := nat_of_ascii c.

Definition is_digit (c : ascii) : bool :=
  (Nat.leb 48 (nat_of c) && Nat.leb (nat_of c) 57)%bool.

Definition digit_val (c : ascii) : Z := Z.of_nat (nat_of c - 48).

(** The whitespace [json] skips: space, tab, line feed, carriage return. *)
Definition is_json_ws (c : ascii) : bool :=
  let n := nat_of c in
  (Nat.eqb n 32 || Nat.eqb n 9 || Nat.eqb n 10 || Nat.eqb n 13)%bool.

(** The ASCII whitespace [int] and [float] skip around a literal. *)
Definition is_py_ws (c : ascii) : bool :=
  let n := nat_of c in
  (Nat.eqb n 32 || (Nat.leb 9 n && Nat.leb n 13))%bool.

Fixpoint skip (p : ascii -> bool) (s : string) : string :=
  match s with
  | String c s' => if p c then skip p s' else s
  | EmptyString => s
  end.

(** A run of digits at the head of [s]: its value, its length, the rest. *)
Fixpoint digits_from (acc : Z) (n : Z) (s : string) : Z * Z * string :=
  match s with
  | String c s' =>
      if is_digit c then digits_from (10 * acc + digit_val c) (n + 1) s'
      else (acc, n, s)
  | EmptyString => (acc, n, s)
  end.

(** The same for the literals of [int] and [float], where one underscore may
    stand between two digits. *)
Fixpoint digits_us_from (acc : Z) (n : Z) (s : string) : Z * Z * string :=
  match s with
  | String c s' =>
      if is_digit c then digits_us_from (10 * acc + digit_val c) (n + 1) s'
      else if (Ascii.eqb c "_" && (0 <? n))%bool then
        match s' with
        | String d s'' =>
            if is_digit d then
              digits_us_from (10 * acc + digit_val d) (n + 1) s''
            else (acc, n, s)
        | EmptyString => (acc, n, s)
        end
      else (acc, n, s)
  | EmptyString => (acc, n, s)
  end.

Definition take_sign (s : string) : bool * string :=
  match s with
  | String "-" s' => (true, s')
  | String "+" s' => (false, s')
  | _ => (false, s)
  end.

Definition all_ws (s : string) : bool :=
  match skip is_py_ws s with EmptyString => true | _ => false end.

(** [int(s)] *)
Definition ref_int (s : string) : option Z :=
  let '(neg, s1) := take_sign (skip is_py_ws s) in
  let '(v, n, s2) := digits_us_from 0 0 s1 in
  if ((0 <? n) && all_ws s2)%bool then Some (if neg then - v else v)
  else None.

(** An exponent [e<sign><digits>] at the head of [s], if there is one. *)
Definition exponent (digits : Z -> Z -> string -> Z * Z * string) (s : string)
  : option (Z * string) :=
  match s with
  | String c s1 =>
      if (Ascii.eqb c "e" || Ascii.eqb c "E")%bool then
        let '(neg, s2) := take_sign s1 in
        let '(v, n, s3) := digits 0 0 s2 in
        if 0 <? n then Some (if neg then - v else v, s3) else None
      else None
  | EmptyString => None
  end.

(** [float(s)] *)
Definition ref_float (s : string) : option float :=
  let '(neg, s1) := take_sign (skip is_py_ws s) in
  let word := PyStr.lower (substring 0 8 s1) in
  let special (w : string) (v : float) : option float :=
    if all_ws (substring (String.length w) (String.length s1) s1)
    then Some (if neg then (- v)%float else v) else None in
  if PyStr.startswith "infinity" word then special "infinity" infinity
  else if PyStr.startswith "inf" word then special "inf" infinity
  else if PyStr.startswith "nan" word then special "nan" nan
  else
    let '(ip, ni, s2) := digits_us_from 0 0 s1 in
    let '(m, nf, s3) :=
      match s2 with
      | String "." s2' => digits_us_from ip 0 s2'
      | _ => (ip, 0, s2)
      end in
    if (ni + nf =? 0) then None
    else
      let '(e, s4) :=
        match exponent digits_us_from s3 with
        | Some (e, s4) => (e, s4)
        | None => (0, s3)
        end in
      if all_ws s4 then Some (PyNum.float_of_decimal neg m (e - nf))
      else None.

Definition hex_val (c : ascii) : option Z :=
  let n := nat_of c in
  if is_digit c then Some (Z.of_nat (n - 48))
  else if (Nat.leb 97 n && Nat.leb n 102)%bool then Some (Z.of_nat (n - 87))
  else if (Nat.leb 65 n && Nat.leb n 70)%bool then Some (Z.of_nat (n - 55))
  else None.

(** Four hexadecimal digits at the head of [s]. *)
Definition hex4 (s : string) : option (Z * string) :=
  match s with
  | String a (String b (String c (String d rest))) =>
      match hex_val a, hex_val b, hex_val c, hex_val d with
      | Some x, Some y, Some z, Some w =>
          Some (((x * 16 + y) * 16 + z) * 16 + w, rest)
      | _, _, _, _ => None
      end
  | _ => None
  end.

Definition byte (z : Z) : ascii := ascii_of_nat (Z.to_nat z).

(** The bytes that encode the code point [u] (UTF-8). *)
Definition utf8 (u : Z) (rest : string) : string :=
  if u <? 128 then String (byte u) rest
  else if u <? 2048 then
    String (byte (192 + u / 64)) (String (byte (128 + u mod 64)) rest)
  else if u <? 65536 then
    String (byte (224 + u / 4096))
      (String (byte (128 + (u / 64) mod 64))
         (String (byte (128 + u mod 64)) rest))
  else
    String (byte (240 + u / 262144))
      (String (byte (128 + (u / 4096) mod 64))
         (String (byte (128 + (u / 64) mod 64))
            (String (byte (128 + u mod 64)) rest))).

(** A [\uXXXX] escape, after its [\u]: a high surrogate followed by the
    escape of a low one is one code point. *)
Definition unicode_escape (s : string) : option (Z * string) :=
  match hex4 s with
  | Some (u, rest) =>
      if ((55296 <=? u) && (u <=? 56319))%bool then
        match rest with
        | String "\" (String "u" rest') =>
            match hex4 rest' with
            | Some (v, rest'') =>
                if ((56320 <=? v) && (v <=? 57343))%bool then
                  Some (65536 + (u - 55296) * 1024 + (v - 56320), rest'')
                else Some (u, rest)
            | None => Some (u, rest)
            end
        | _ => Some (u, rest)
        end
      else Some (u, rest)
  | None => None
  end.

(** The text of a string literal after its opening quote, and what follows
    the closing quote.  [fuel] bounds the characters read. *)
Fixpoint scan_string (fuel : nat) (s : string) : option (string * string) :=
  match fuel with
  | O => None
  | S fuel' =>
      match s with
      | EmptyString => None
      | String c s1 =>
          if Ascii.eqb c PyStr.dquote then Some (EmptyString, s1)
          else if Ascii.eqb c PyStr.backslash then
            match s1 with
            | String e s2 =>
                let plain (n : nat) :=
                  match scan_string fuel' s2 with
                  | Some (t, rest) => Some (String (ascii_of_nat n) t, rest)
                  | None => None
                  end in
                if Ascii.eqb e PyStr.dquote then plain 34%nat
                else if Ascii.eqb e PyStr.backslash then plain 92%nat
                else if Ascii.eqb e "/" then plain 47%nat
                else if Ascii.eqb e "b" then plain 8%nat
                else if Ascii.eqb e "f" then plain 12%nat
                else if Ascii.eqb e "n" then plain 10%nat
                else if Ascii.eqb e "r" then plain 13%nat
                else if Ascii.eqb e "t" then plain 9%nat
                else if Ascii.eqb e "u" then
                  match unicode_escape s2 with
                  | Some (u, s3) =>
                      match scan_string fuel' s3 with
                      | Some (t, rest) => Some (utf8 u t, rest)
                      | None => None
                      end
                  | None => None
                  end
                else None
            | EmptyString => None
            end
          else if Nat.ltb (nat_of c) 32 then None
          else
            match scan_string fuel' s1 with
            | Some (t, rest) => Some (String c t, rest)
            | None => None
            end
      end
  end.

(** A number at the head of [s] (whose first character is a digit or a
    minus sign before a digit). *)
Definition scan_number (s : string) : option (json * string) :=
  let '(neg, s1) :=
    match s with
    | String "-" s' => (true, s')
    | _ => (false, s)
    end in
  match s1 with
  | String c s2 =>
      if is_digit c then
        let '(ip, s3) :=
          if Ascii.eqb c "0" then (0, s2)
          else let '(v, _, r) := digits_from 0 0 s1 in (v, r) in
        let '(m, nf, s4) :=
          match s3 with
          | String "." s3' =>
              let '(v, n, r) := digits_from ip 0 s3' in
              if 0 <? n then (v, n, r) else (ip, 0, s3)
          | _ => (ip, 0, s3)
          end in
        match exponent digits_from s4 with
        | Some (e, s5) => Some (JFloat (PyNum.float_of_decimal neg m (e - nf)), s5)
        | None =>
            if 0 <? nf then Some (JFloat (PyNum.float_of_decimal neg m (- nf)), s4)
            else Some (JInt (if neg then - m else m), s4)
        end
      else None
  | EmptyString => None
  end.

Definition after_prefix (p s : string) : option string :=
  if PyStr.startswith p s
  then Some (substring (String.length p) (String.length s) s)
  else None.

(** A literal name at the head of [s]. *)
Definition scan_name (s : string) : option (json * string) :=
  let try_name (p : string) (j : json) (k : option (json * string)) :=
    match after_prefix p s with
    | Some rest => Some (j, rest)
    | None => k
    end in
  try_name "null" JNull
    (try_name "true" (JBool true)
       (try_name "false" (JBool false)
          (try_name "NaN" (JFloat nan)
             (try_name "Infinity" (JFloat infinity)
                (try_name "-Infinity" (JFloat neg_infinity) None))))).

(** Entries of an object: a key read again replaces the value of the entry
    it first made. *)
Fixpoint obj_set (k : string) (v : json) (d : list (string * json))
  : list (string * json) :=
  match d with
  | [] => [(k, v)]
  | (k', v') :: d' =>
      if String.eqb k' k then (k', v) :: d' else (k', v') :: obj_set k v d'
  end.

(** The recursive descent: a value; the elements of an array after its
    bracket or after a comma; the members of an object likewise. *)
Fixpoint scan_value (fuel : nat) (s : string) : option (json * string) :=
  match fuel with
  | O => None
  | S fuel' =>
      match s with
      | String c s1 =>
          if Ascii.eqb c PyStr.dquote then
            match scan_string (String.length s) s1 with
            | Some (t, rest) => Some (JStr t, rest)
            | None => None
            end
          else if Ascii.eqb c "{" then
            match skip is_json_ws s1 with
            | String "}" rest => Some (JObj [], rest)
            | s2 => scan_members fuel' [] s2
            end
          else if Ascii.eqb c "[" then
            match skip is_json_ws s1 with
            | String "]" rest => Some (JArr [], rest)
            | s2 => scan_elements fuel' [] s2
            end
          else
            match scan_number s with
            | Some r => Some r
            | None => scan_name s
            end
      | EmptyString => None
      end
  end
with scan_elements (fuel : nat) (acc : list json) (s : string)
  : option (json * string) :=
  match fuel with
  | O => None
  | S fuel' =>
      match scan_value fuel' s with
      | Some (v, s1) =>
          match skip is_json_ws s1 with
          | String "," s2 => scan_elements fuel' (v :: acc) (skip is_json_ws s2)
          | String "]" rest => Some (JArr (rev (v :: acc)), rest)
          | _ => None
          end
      | None => None
      end
  end
with scan_members (fuel : nat) (acc : list (string * json)) (s : string)
  : option (json * string) :=
  match fuel with
  | O => None
  | S fuel' =>
      match s with
      | String c s1 =>
          if Ascii.eqb c PyStr.dquote then
            match scan_string (String.length s) s1 with
            | Some (k, s2) =>
                match skip is_json_ws s2 with
                | String ":" s3 =>
                    match scan_value fuel' (skip is_json_ws s3) with
                    | Some (v, s4) =>
                        match skip is_json_ws s4 with
                        | String "," s5 =>
                            scan_members fuel' (obj_set k v acc)
                              (skip is_json_ws s5)
                        | String "}" rest => Some (JObj (obj_set k v acc), rest)
                        | _ => None
                        end
                    | None => None
                    end
                | _ => None
                end
            | None => None
            end
          else None
      | EmptyString => None
      end
  end.

(** [json.loads(s)]: one value, whitespace around it, nothing else.  Each
    call of the descent reads a character before it goes deeper, so twice the
    length of [s] is fuel enough. *)
Definition ref_json (s : string) : option json :=
  match scan_value (2 * String.length s + 2) (skip is_json_ws s) with
  | Some (j, rest) =>
      match skip is_json_ws rest with
      | EmptyString => Some j
      | _ => None
      end
  | None => None
  end.

Definition or_raise {A : Type} (c : exc_class) (msg : string) (o : option A)
  : result A :=
  match o with
  | Some a => Ok a
  | None => Err (new_exn c msg)
  end.

End RefLib.

(** The reference library as an instance.  The message of a decode error
    tells where parsing stopped; the client discards it, and the model has
    one message for all. *)
#[local] Instance python_ref : PyLib := {
  json_decode s :=
    RefLib.or_raise JSONDecodeError "Expecting value" (RefLib.ref_json s);
  float_of_str s :=
    RefLib.or_raise ValueError
      ("could not convert string to float: " ++ PyStr.repr s) (RefLib.ref_float s);
  int_of_str s :=
    RefLib.or_raise ValueError
      ("invalid literal for int() with base 10: " ++ PyStr.repr s) (RefLib.ref_int s)
}.

(** ** Comprehensions and generators *)

Module Gen.

Local Open Scope py_scope.

(** [[x for x in xs if cond(x)]] *)
Fixpoint filter_if {R : Type} (cond : pyval -> outcome R bool) (xs : list pyval)
  : outcome R (list pyval) :=
  match xs with
  | [] => Normal []
  | x :: xs' =>
      keep <- cond x ;;
      rest <- filter_if cond xs' ;;
      Normal (if keep then x :: rest else rest)
  end.

(** [[f(x) for x in xs]] *)
Fixpoint map_each {R : Type} (f : pyval -> outcome R pyval) (xs : list pyval)
  : outcome R (list pyval) :=
  match xs with
  | [] => Normal []
  | x :: xs' =>
      y <- f x ;;
      rest <- map_each f xs' ;;
      Normal (y :: rest)
  end.

(** [next((x for x in xs if cond(x)), None)] *)
Fixpoint next_or_None {R : Type} (cond : pyval -> outcome R bool)
    (xs : list pyval) : outcome R pyval :=
  match xs with
  | [] => Normal PNone
  | x :: xs' =>
      found <- cond x ;;
      if found then Normal x else next_or_None cond xs'
  end.

(** [sum(f(x) for x in xs)], the running total starting from [acc]; [sum]
    starts from the integer 0 and adds from left to right (CPython 3.12 and
    later compensate the rounding of a sum of floats, see
    [PyNum.compensated_sum]; on the prices of the store both sums are the
    same float). *)
Fixpoint sum_from {R : Type} (acc : pyval) (f : pyval -> outcome R pyval)
    (xs : list pyval) : outcome R pyval :=
  match xs with
  | [] => Normal acc
  | x :: xs' =>
      y <- f x ;;
      acc' <- Py.add acc y ;;
      sum_from acc' f xs'
  end.

Definition sum {R : Type} (f : pyval -> outcome R pyval) (xs : list pyval)
  : outcome R pyval :=
  sum_from (PInt 0) f xs.

End Gen.

(** ** calculator_client.py *)

Module CalculatorClient.
Section Client.
Context {L : PyLib}.
Local Open Scope py_scope.

(** The number a text stands for, tried in both branches below:
    [try: if '.' in x: return float(x); return int(x)]
    [except Exception: return x]. *)
Definition coerce_block {A : Type} (x : pyval) : outcome pyval A :=
  try_except (
    has_dot <- Py.str_in "." x ;;
    (if has_dot then f <- Py.float_ x ;; return_ f else pass) ;;
    i <- Py.int_ x ;;
    return_ i)
  [Exception] (fun _ => return_ x).

(** The body of [if hasattr(content, 'text') and content.text is not None];
    the [match] on [PDict] is [isinstance(parsed_text, dict)]. *)
Definition text_block {A : Type} (content : pyval) : outcome pyval A :=
  text_val <- Py.getattr content "text" ;;
  try_except (
    parsed_text <- Py.json_loads text_val ;;
    match parsed_text with
    | PDict d =>
        if Py.has_key "result" d then return_ (Py.dict_get "result" d)
        else pass
    | _ => pass
    end ;;
    return_ parsed_text)
  [JSONDecodeError] (fun _ => coerce_block text_val).

(** The body of [if hasattr(content, 'json')]; the [match] on [PDict] is
    [isinstance(parsed, dict)]. *)
Definition json_block (content : pyval) : outcome pyval unit :=
  try_except (
    parsed <-
      (accessor <- Py.getattr content "json" ;;
       if Py.callable accessor then
         json_str <- (f <- Py.getattr content "json" ;; Py.call0 f) ;;
         try_except (Py.json_loads json_str)
           [JSONDecodeError] (fun _ => return_ json_str)
       else Py.getattr content "json") ;;
    match parsed with
    | PDict d =>
        let res :=
          if Py.has_key "result" d then Py.dict_get "result" d
          else if Py.has_key "text" d then Py.dict_get "text" d
          else parsed in
        (if Py.isinstance_str res then coerce_block res else pass) ;;
        return_ res
    | _ => pass
    end ;;
    return_ parsed)
  [Exception] (fun _ => pass).

(** [extract_tool_result(response)] *)
Definition extract_tool_result (response : pyval) : result pyval :=
  def (
    try_except (
      has_content <-
        (if Py.hasattr response "content" then
           c <- Py.getattr response "content" ;; Normal (Py.truthy c)
         else Normal false) ;;
      (if has_content then
         content <- (c <- Py.getattr response "content" ;; Py.getitem_index c 0) ;;
         has_text <-
           (if Py.hasattr content "text" then
              t <- Py.getattr content "text" ;; Normal (negb (Py.is_None t))
            else Normal false) ;;
         (if has_text then text_block content else pass) ;;
         (if Py.hasattr content "json" then json_block content else pass)
       else pass) ;;
      return_ response)
    [Exception] (fun _ => return_ response)).

End Client.
End CalculatorClient.

(** ** calculator_server.py *)

Module CalculatorServer.
Local Open Scope py_scope.

(** [a / b] on two floats. *)
Definition truediv {R : Type} (a b : float) : outcome R float :=
  if PrimFloat.eqb b zero then raise ZeroDivisionError "float division by zero"
  else Normal (a / b)%float.

Definition invalid_types {R A : Type} (e : exn) : outcome R A :=
  raise ValueError ("Invalid input types: " ++ exn_msg e).

(** [add(a, b)]; the arguments are floats, as the tool declares them. *)
Definition add (a b : float) : result float :=
  def (try_except (result <- Normal (a + b)%float ;; return_ result)
         [TypeError] invalid_types).

(** [subtract(a, b)] *)
Definition subtract (a b : float) : result float :=
  def (try_except (result <- Normal (a - b)%float ;; return_ result)
         [TypeError] invalid_types).

(** [multiply(a, b)] *)
Definition multiply (a b : float) : result float :=
  def (try_except (result <- Normal (a * b)%float ;; return_ result)
         [TypeError] invalid_types).

(** [divide(a, b)] *)
Definition divide (a b : float) : result float :=
  def (
    try_except (
      (if PrimFloat.eqb b zero then raise ValueError "Cannot divide by zero"
       else pass) ;;
      result <- truediv a b ;;
      return_ result)
    [TypeError; ZeroDivisionError] (fun e =>
      raise ValueError ("Division error: " ++ exn_msg e))).

End CalculatorServer.

(** ** calculator_server.py: the prompt *)

Module CalculatorPrompts.
Local Open Scope py_scope.

(** The whitespace [str.strip] removes, within ASCII. *)
Definition is_space (c : ascii) : bool :=
  let n := nat_of_ascii c in
  (Nat.eqb n 32 || (Nat.leb 9 n && Nat.leb n 13)
   || (Nat.leb 28 n && Nat.leb n 31))%bool.

(** [s.lstrip()] *)
Fixpoint lstrip (s : string) : string :=
  match s with
  | String c s' => if is_space c then lstrip s' else s
  | EmptyString => s
  end.

(** [s.rstrip()] *)
Fixpoint rstrip (s : string) : string :=
  match s with
  | EmptyString => EmptyString
  | String c s' =>
      match rstrip s' with
      | EmptyString => if is_space c then EmptyString else String c EmptyString
      | r => String c r
      end
  end.

(** [s.strip()] *)
Definition strip (s : string) : string := rstrip (lstrip s).

Definition nl : string := String "010"%char EmptyString.

(** A line of the template: four spaces, the text, the end of the line. *)
Definition line (text : string) : string := "    " ++ text ++ nl.

(** [calculate_expression(expression)]: the template opens with an end of
    line and closes with four spaces before the quotes. *)
Definition calculate_expression (expression : string) : result string :=
  def (
    let prompt :=
      nl
      ++ line "Please evaluate the following mathematical expression step by step:"
      ++ line ""
      ++ line ("Expression: " ++ expression)
      ++ line ""
      ++ line "Instructions:"
      ++ line "1. Break down the expression into individual operations"
      ++ line "2. Use the appropriate calculator tool for each operation"
      ++ line "3. Follow order of operations (parentheses, multiplication/division, addition/subtraction)"
      ++ line "4. Show all intermediate steps"
      ++ line "5. Provide the final result"
      ++ line ""
      ++ line "Available tools: add, subtract, multiply, divide"
      ++ "    " in
    return_ (strip prompt)).

End CalculatorPrompts.

(** ** data_processor_server.py *)

Module DataProcessorServer.
Local Open Scope py_scope.

(** The store: a dictionary with the two keys [users] and [products], each a
    list of records, read and never written. *)
Record store : Type := { users : list pyval; products : list pyval }.

Definition DATA_STORE : store := {|
  users := [
    PDict [("id", PInt 1); ("name", PStr "Alice"); ("email", PStr "alice@example.com")];
    PDict [("id", PInt 2); ("name", PStr "Bob"); ("email", PStr "bob@example.com")];
    PDict [("id", PInt 3); ("name", PStr "Charlie"); ("email", PStr "charlie@example.com")]
  ];
  products := [
    PDict [("id", PInt 101); ("name", PStr "Laptop"); ("price", PFloat 999.99)];
    PDict [("id", PInt 102); ("name", PStr "Mouse"); ("price", PFloat 29.99)];
    PDict [("id", PInt 103); ("name", PStr "Keyboard"); ("price", PFloat 79.99)]
  ]
|}.

(** [{**user, k1: v1, ...}] *)
Definition dict_with {R : Type} (user : pyval) (more : list (string * pyval))
  : outcome R pyval :=
  match user with
  | PDict d =>
      Normal (PDict (fold_left (fun acc kv => Py.dict_set (fst kv) (snd kv) acc)
                       more d))
  | _ => raise TypeError ("'" ++ Py.type_name user ++ "' object is not a mapping")
  end.

Section Tools.
Variable DATA : store.

(** [search_users(query)]; [query] is a [str], as the tool declares it, so
    [isinstance(query, str)] holds and the guard is [not query]. *)
Definition search_users (query : string) : result pyval :=
  def (
    try_except2 (
      (if negb (Py.truthy (PStr query)) then
         raise ValueError "Query must be a non-empty string"
       else pass) ;;
      let query_lower := PyStr.lower query in
      matches <-
        Gen.filter_if (fun user =>
          in_name <- (name <- Py.getitem_key user "name" ;;
                      lowered <- Py.lower name ;;
                      Py.str_in query_lower lowered) ;;
          if in_name then Normal true
          else (email <- Py.getitem_key user "email" ;;
                lowered <- Py.lower email ;;
                Py.str_in query_lower lowered))
          (users DATA) ;;
      return_ (PList matches))
    [ValueError] reraise
    [Exception] (fun e => raise RuntimeError ("Search failed: " ++ exn_msg e))).

(** [get_user_details(user_id)]; [user_id] is an [int], as the tool declares
    it, so [isinstance(user_id, int)] holds and the guard is [user_id < 0]. *)
Definition get_user_details (user_id : Z) : result pyval :=
  def (
    try_except2 (
      (if user_id <? 0 then
         raise ValueError ("Invalid user_id: " ++ PyStr.of_int user_id)
       else pass) ;;
      user <-
        Gen.next_or_None (fun u =>
          id <- Py.getitem_key u "id" ;; Normal (Py.eq_int id user_id))
          (users DATA) ;;
      (if negb (Py.truthy user) then
         raise KeyError ("User with id " ++ PyStr.of_int user_id ++ " not found")
       else pass) ;;
      user_with_details <-
        dict_with user [("account_status", PStr "active");
                        ("created_at", PStr "2024-01-15")] ;;
      return_ user_with_details)
    [ValueError; KeyError] reraise
    [Exception] (fun e =>
      raise RuntimeError ("Failed to retrieve user: " ++ exn_msg e))).

(** [calculate_average_product_price()] *)
Definition calculate_average_product_price : result pyval :=
  def (
    try_except2 (
      (if negb (Py.truthy (PList (products DATA))) then
         raise ValueError "No products in store"
       else pass) ;;
      total <- Gen.sum (fun p => Py.getitem_key p "price") (products DATA) ;;
      average <- Py.truediv_int total (Z.of_nat (List.length (products DATA))) ;;
      rounded <- Py.round average 2 ;;
      return_ rounded)
    [ValueError] reraise
    [Exception] (fun e =>
      raise RuntimeError ("Price calculation failed: " ++ exn_msg e))).

(** [get_user_count()] *)
Definition get_user_count : result pyval :=
  def (
    let count := Z.of_nat (List.length (users DATA)) in
    return_ (PDict [("count", PInt count); ("resource", PStr "users")])).

(** [get_product_by_id(product_id)] *)
Definition get_product_by_id (product_id : Z) : result pyval :=
  def (
    product <-
      Gen.next_or_None (fun p =>
        id <- Py.getitem_key p "id" ;; Normal (Py.eq_int id product_id))
        (products DATA) ;;
    (if negb (Py.truthy product) then
       ids <- Gen.map_each (fun p => Py.getitem_key p "id") (products DATA) ;;
       return_ (PDict [("error", PStr ("Product " ++ PyStr.of_int product_id
                                       ++ " not found"));
                       ("available_ids", PList ids)])
     else pass) ;;
    return_ product).

End Tools.
End DataProcessorServer.

(** ** Vocabulary of the specification *)

(** The words of the specification, as definitions of their own: they are
    what the theorems compare the embedding with. *)
Module Spec.

(** The value an object exposes under a name, if it exposes one. *)
Definition attr (v : pyval) (name : string) : option pyval :=
  match v with
  | PObject _ attrs => Py.lookup name attrs
  | _ => None
  end.

(** The first item of an envelope that exposes a non-empty list of content
    items. *)
Definition first_item (response : pyval) : option pyval :=
  match attr response "content" with
  | Some (PList (item :: _)) => Some item
  | _ => None
  end.

(** The text an item exposes, when it exposes one that is not [None]. *)
Definition non_null_text (item : pyval) : option pyval :=
  match attr item "text" with
  | Some PNone => None
  | other => other
  end.

(** An envelope of no known shape: no non-empty content list, or a first
    item with no non-null text and no [json] accessor. *)
Definition unknown_shape (response : pyval) : Prop :=
  forall item, first_item response = Some item ->
    non_null_text item = None /\ attr item "json" = None.


(** Plain data: no object and no callable, at any depth. *)
Fixpoint is_data (v : pyval) : bool :=
  match v with
  | PNone | PBool _ | PInt _ | PFloat _ | PStr _ => true
  | PList items => forallb is_data items
  | PDict entries => forallb (fun kv => is_data (snd kv)) entries
  | PObject _ _ | PFunc _ | PFuncRaise _ => false
  end.

(** The pre-computed [json] value of the first content item, where there is
    one, is plain data. *)
Definition plain_json_value (response : pyval) : Prop :=
  forall item v, first_item response = Some item ->
    attr item "json" = Some v -> Py.callable v = false -> is_data v = true.

Definition is_decode_error (e : exn) : bool :=
  issubclass (exn_class e) JSONDecodeError.

Section WithLibrary.
Context {L : PyLib}.

(** Numeric coercion of a text: a decimal point makes it a float, else it is
    an integer; the text itself when the conversion fails. *)
Definition coerce_number (s : string) : pyval :=
  if PyStr.contains "." s then
    match float_of_str s with Ok f => PFloat f | Err _ => PStr s end
  else
    match int_of_str s with Ok z => PInt z | Err _ => PStr s end.

(** Step 2 of the unwrapper, on a parsed text. *)
Definition result_or_self (parsed : pyval) : pyval :=
  match parsed with
  | PDict d => if Py.has_key "result" d then Py.dict_get "result" d else parsed
  | _ => parsed
  end.

(** Step 3: the candidate of a mapping is its [result], else its [text], else
    the mapping; a candidate that is a text is coerced.  A value that is no
    mapping is the result as it is. *)
Definition candidate (d : list (string * pyval)) : pyval :=
  if Py.has_key "result" d then Py.dict_get "result" d
  else if Py.has_key "text" d then Py.dict_get "text" d
  else PDict d.

Definition select_and_coerce (parsed : pyval) : pyval :=
  match parsed with
  | PDict d =>
      match candidate d with
      | PStr s => coerce_number s
      | res => res
      end
  | _ => parsed
  end.

(** What the text branch returns for a text, when it returns. *)
Definition text_result (text_val : pyval) : option pyval :=
  match text_val with
  | PStr s =>
      match json_decode s with
      | Ok j => Some (result_or_self (of_json j))
      | Err e => if is_decode_error e then Some (coerce_number s) else None
      end
  | _ => None
  end.

(** What the [json] branch returns for an accessor, when it returns: the
    accessor is called if it is callable and its output parsed, the raw
    output standing in when it is no JSON document; a pre-computed value is
    taken as it is. *)
Definition json_result (accessor : pyval) : option pyval :=
  match accessor with
  | PFunc (PStr s) =>
      match json_decode s with
      | Ok j => Some (select_and_coerce (of_json j))
      | Err e => if is_decode_error e then Some (PStr s) else None
      end
  | PFunc _ | PFuncRaise _ => None
  | v => Some (select_and_coerce v)
  end.

(** The unwrapper as a function of the shape of the envelope. *)
Definition unwrap (response : pyval) : pyval :=
  match first_item response with
  | None => response
  | Some item =>
      match non_null_text item with
      | Some t =>
          match text_result t with Some v => v | None => response end
      | None =>
          match attr item "json" with
          | Some accessor =>
              match json_result accessor with
              | Some v => v
              | None => response
              end
          | None => response
          end
      end
  end.



End WithLibrary.

(** A tool response whose only content item is a text. *)
Definition text_envelope (text : string) : pyval :=
  PObject "CallToolResult"
    [("content", PList [PObject "TextContent"
                          [("type", PStr "text"); ("text", PStr text)]])].

(** A tool response whose only content item has the attributes [attrs]. *)
Definition item_envelope (attrs : list (string * pyval)) : pyval :=
  PObject "CallToolResult" [("content", PList [PObject "Content" attrs])].


(** The text [{"result": 7}]. *)
Definition result_7_text : string := "{" ++ Py.dq "result" ++ ": 7}".



End Spec.

(** Vocabulary of the claims about the two servers. *)
Module ServerSpec.

(** [q] occurs in [s] as a run of consecutive characters, whatever the case
    of the letters. *)
Definition ci_substring (q s : string) : Prop :=
  exists pre mid post,
    s = pre ++ mid ++ post /\ PyStr.lower mid = PyStr.lower q.

(** The string a record holds under a key. *)
Definition str_field (u : pyval) (k : string) : option string :=
  match u with
  | PDict d => match Py.lookup k d with Some (PStr s) => Some s | _ => None end
  | _ => None
  end.

(** The name or the email of the record contains the query. *)
Definition user_matches (q : string) (u : pyval) : Prop :=
  (exists s, str_field u "name" = Some s /\ ci_substring q s) \/
  (exists s, str_field u "email" = Some s /\ ci_substring q s).

(** The same as a test, on the lowered strings. *)
Definition user_matchesb (q : string) (u : pyval) : bool :=
  let holds (k : string) :=
    match str_field u k with
    | Some s => PyStr.contains (PyStr.lower q) (PyStr.lower s)
    | None => false
    end in
  (holds "name" || holds "email")%bool.

(** The record has the identifier [id]. *)
Definition has_id (id : Z) (u : pyval) : bool :=
  match u with
  | PDict d =>
      match Py.lookup "id" d with
      | Some i => Py.eq_int i id
      | None => false
      end
  | _ => false
  end.

(** A user record with the two fixed fields added. *)
Definition augmented (u : pyval) : pyval :=
  match u with
  | PDict d =>
      PDict (d ++ [("account_status", PStr "active");
                   ("created_at", PStr "2024-01-15")])%list
  | _ => u
  end.

Definition alice : pyval :=
  PDict [("id", PInt 1); ("name", PStr "Alice"); ("email", PStr "alice@example.com")].
Definition bob : pyval :=
  PDict [("id", PInt 2); ("name", PStr "Bob"); ("email", PStr "bob@example.com")].
Definition charlie : pyval :=
  PDict [("id", PInt 3); ("name", PStr "Charlie"); ("email", PStr "charlie@example.com")].

Definition laptop : pyval :=
  PDict [("id", PInt 101); ("name", PStr "Laptop"); ("price", PFloat 999.99)].
Definition mouse : pyval :=
  PDict [("id", PInt 102); ("name", PStr "Mouse"); ("price", PFloat 29.99)].
Definition keyboard : pyval :=
  PDict [("id", PInt 103); ("name", PStr "Keyboard"); ("price", PFloat 79.99)].

(** The payload the product resource returns for an identifier it does not
    find. *)
Definition not_found_payload (product_id : Z) (ids : list pyval) : pyval :=
  PDict [("error", PStr ("Product " ++ PyStr.of_int product_id ++ " not found"));
         ("available_ids", PList ids)].

(** The identifier a record holds. *)
Definition id_of (u : pyval) : pyval :=
  match u with
  | PDict d => Py.dict_get "id" d
  | _ => PNone
  end.

(** An exception of the class [c] or of one derived from it. *)
Definition is_a (c : exc_class) (e : exn) : bool := issubclass (exn_class e) c.

(** The call raised an exception of the class [c]. *)
Definition raises {R : Type} (c : exc_class) (r : result R) : Prop :=
  exists e, r = Err e /\ is_a c e = true.

(** The block raises no [ValueError]. *)
Definition no_ValueError {R A : Type} (o : outcome R A) : Prop :=
  forall e, o = Raised e -> is_a ValueError e = false.

End ServerSpec.

(** ** Vocabulary of the further properties *)

(** Words for stores other than the one of the source: what a record must
    hold for a tool to read it, and the fixed parts of what the tools
    return. *)
Module MoreSpec.

(** The test of the comprehension of [search_users], on the lowered
    query. *)
Definition search_test {R : Type} (query_lower : string) (user : pyval)
  : outcome R bool :=
  bind (bind (Py.getitem_key user "name") (fun name =>
          bind (Py.lower name) (fun lowered =>
            Py.str_in query_lower lowered)))
    (fun in_name =>
       if in_name then Normal true
       else bind (Py.getitem_key user "email") (fun email =>
              bind (Py.lower email) (fun lowered =>
                Py.str_in query_lower lowered))).

(** A user record the search for [q] can read: a dictionary with a string
    under [name] and, unless that name contains the query, a string under
    [email]. *)
Definition searchable (q : string) (u : pyval) : bool :=
  match ServerSpec.str_field u "name" with
  | Some n =>
      (PyStr.contains (PyStr.lower q) (PyStr.lower n)
       || match ServerSpec.str_field u "email" with
          | Some _ => true
          | None => false
          end)%bool
  | None => false
  end.

(** Text within ASCII, where [PyStr.lower] is [str.lower]. *)
Definition ascii_text (s : string) : bool :=
  forallb (fun c => Nat.ltb (nat_of_ascii c) 128) (list_ascii_of_string s).

(** The name and the email of the record, where they are strings, are
    within ASCII. *)
Definition ascii_fields (u : pyval) : bool :=
  let within (k : string) :=
    match ServerSpec.str_field u k with
    | Some s => ascii_text s
    | None => true
    end in
  (within "name" && within "email")%bool.

(** A dictionary with no key [k]. *)
Definition lacks_key (k : string) (u : pyval) : bool :=
  match u with
  | PDict d => negb (Py.has_key k d)
  | _ => false
  end.

(** A record that has an identifier, and not [id]. *)
Definition other_id (id : Z) (u : pyval) : bool :=
  match u with
  | PDict d =>
      match Py.lookup "id" d with
      | Some i => negb (Py.eq_int i id)
      | None => false
      end
  | _ => false
  end.

(** The test [u["id"] == id] the lookups by identifier make. *)
Definition id_test {R : Type} (id : Z) (u : pyval) : outcome R bool :=
  bind (Py.getitem_key u "id") (fun i => Normal (Py.eq_int i id)).

(** A product record with a float under [price]. *)
Definition float_priced (p : pyval) : bool :=
  match p with
  | PDict d => match Py.lookup "price" d with Some (PFloat _) => true | _ => false end
  | _ => false
  end.

(** The block has no [return]. *)
Definition no_return {R A : Type} (o : outcome R A) : Prop :=
  forall r, o <> Returned r.

(** The two fields [get_user_details] sets, in the order it sets them. *)
Definition with_details (d : list (string * pyval)) : list (string * pyval) :=
  Py.dict_set "created_at" (PStr "2024-01-15")
    (Py.dict_set "account_status" (PStr "active") d).

(** The payload of [get_user_count] for [n] users. *)
Definition count_payload (n : Z) : pyval :=
  PDict [("count", PInt n); ("resource", PStr "users")].

(** What comes before and after the expression in the prompt. *)
Definition prompt_head : string :=
  "Please evaluate the following mathematical expression step by step:"
  ++ CalculatorPrompts.nl ++ "    " ++ CalculatorPrompts.nl
  ++ "    Expression: ".

Definition prompt_tail : string :=
  CalculatorPrompts.nl ++ "    " ++ CalculatorPrompts.nl
  ++ "    Instructions:" ++ CalculatorPrompts.nl
  ++ "    1. Break down the expression into individual operations"
  ++ CalculatorPrompts.nl
  ++ "    2. Use the appropriate calculator tool for each operation"
  ++ CalculatorPrompts.nl
  ++ "    3. Follow order of operations (parentheses, multiplication/division, addition/subtraction)"
  ++ CalculatorPrompts.nl
  ++ "    4. Show all intermediate steps" ++ CalculatorPrompts.nl
  ++ "    5. Provide the final result" ++ CalculatorPrompts.nl
  ++ "    " ++ CalculatorPrompts.nl
  ++ "    Available tools: add, subtract, multiply, divide".

End MoreSpec.

(** * Properties *)

(** ** The outcome monad *)

Lemma matches_Exception (e : exn) : matches [Exception] e = true.
Proof. reflexivity. Qed.

Arguments matches : simpl never.

Lemma matches_decode_error (e : exn) :
  matches [JSONDecodeError] e = Spec.is_decode_error e.
Proof. unfold matches, Spec.is_decode_error. simpl. apply orb_false_r. Qed.

(** A body guarded by [except Exception: return r] always returns. *)
Lemma def_try_returns {R : Type} (body : outcome R Empty_set) (r : R) :
  exists v, def (try_except body [Exception] (fun _ => return_ r)) = Ok v.
Proof.
  destruct body as [[]|v|e]; simpl; eauto.
Qed.

(** ** The response unwrapper *)

Section ClientProperties.
Context {L : PyLib}.
Import CalculatorClient Spec.
Local Open Scope py_scope.

Lemma coerce_block_str {A : Type} (s : string) :
  coerce_block (A := A) (PStr s) = Returned (coerce_number s).
Proof.
  unfold coerce_block, coerce_number. cbn.
  destruct (PyStr.contains "." s); cbn.
  - destruct (float_of_str s); reflexivity.
  - destruct (int_of_str s); reflexivity.
Qed.

Lemma text_block_spec {A : Type} (cls : string)
    (attrs : list (string * pyval)) (t : pyval) :
  Py.lookup "text" attrs = Some t ->
  match text_result t with
  | Some v => text_block (A := A) (PObject cls attrs) = Returned v
  | None => exists e, text_block (A := A) (PObject cls attrs) = Raised e
  end.
Proof.
  intros Ht. unfold text_block, text_result. cbn. rewrite Ht. cbn.
  destruct t; cbn; unfold matches; cbn; eauto.
  destruct (json_decode s) as [j|e]; cbn.
  - unfold result_or_self.
    destruct (of_json j); try reflexivity.
    cbn. destruct (Py.has_key "result" entries); reflexivity.
  - rewrite matches_decode_error. unfold is_decode_error. cbn.
    destruct (exc_class_eqb (exn_class e) JSONDecodeError);
      [apply coerce_block_str | eauto].
Qed.

(** Case analysis on the candidate a dictionary [d] yields. *)
Ltac candidate_cases d :=
  unfold select_and_coerce, candidate; cbn;
  destruct (Py.has_key "result" d);
    [ destruct (Py.dict_get "result" d)
    | destruct (Py.has_key "text" d);
        [ destruct (Py.dict_get "text" d) | ] ];
  cbn; rewrite ?coerce_block_str; reflexivity.

Lemma json_block_spec (cls : string) (attrs : list (string * pyval))
    (accessor : pyval) :
  Py.lookup "json" attrs = Some accessor ->
  json_block (PObject cls attrs) =
    match json_result accessor with
    | Some v => Returned v
    | None => Normal tt
    end.
Proof.
  intros Hj. unfold json_block, json_result. cbn. rewrite Hj. cbn.
  destruct accessor as [ | | | | | |d| |ret|e]; cbn; try reflexivity.
  - candidate_cases d.
  - destruct ret as [ | | | |s| | | | | ]; cbn; try reflexivity.
    destruct (json_decode s) as [j|e]; cbn.
    + destruct (of_json j) as [ | | | | | |d| | | ]; cbn; try reflexivity.
      candidate_cases d.
    + rewrite matches_decode_error. unfold is_decode_error. cbn.
      destruct (exc_class_eqb (exn_class e) JSONDecodeError); reflexivity.
Qed.

(** The first item of a non-empty list is what [content[0]] evaluates to. *)
Lemma getitem_index_cons {R : Type} (item : pyval) (rest : list pyval) :
  Py.getitem_index (R := R) (PList (item :: rest)) 0 = Normal item.
Proof. reflexivity. Qed.

(** The end of the unwrapper, from the test for a [json] accessor on. *)
Lemma json_tail (response : pyval) (icls : string)
    (iattrs : list (string * pyval)) :
  def (try_except (
         (if Py.has_key "json" iattrs then json_block (PObject icls iattrs)
          else pass) ;;
         return_ response)
       [Exception] (fun _ => return_ response))
  = Ok match Py.lookup "json" iattrs with
       | Some accessor =>
           match json_result accessor with
           | Some v => v
           | None => response
           end
       | None => response
       end.
Proof.
  unfold Py.has_key.
  destruct (Py.lookup "json" iattrs) as [accessor|] eqn:Hj; [|reflexivity].
  rewrite (json_block_spec _ _ _ Hj).
  destruct (json_result accessor); reflexivity.
Qed.

Lemma non_null_text_object (icls : string) (iattrs : list (string * pyval)) :
  non_null_text (PObject icls iattrs) =
    match Py.lookup "text" iattrs with
    | Some t => if Py.is_None t then None else Some t
    | None => None
    end.
Proof.
  unfold non_null_text, attr.
  destruct (Py.lookup "text" iattrs) as [[]|]; reflexivity.
Qed.

(** The unwrapper on an envelope whose content list starts with [item]. *)
Lemma extract_tool_result_item (cls : string) (attrs : list (string * pyval))
    (item : pyval) (rest : list pyval) :
  Py.lookup "content" attrs = Some (PList (item :: rest)) ->
  extract_tool_result (PObject cls attrs) = Ok (unwrap (PObject cls attrs)).
Proof.
  intros Hc.
  unfold extract_tool_result, unwrap, first_item.
  unfold attr at 1.
  unfold Py.hasattr at 1. unfold Py.getattr at 1 2. unfold Py.has_key at 1.
  rewrite Hc. cbn [bind Py.truthy]. rewrite getitem_index_cons. cbn [bind].
  destruct item as [ | | | | | | |icls iattrs| | ]; try reflexivity.
  rewrite non_null_text_object. unfold attr.
  unfold Py.hasattr, Py.getattr at 1. unfold Py.has_key at 1.
  destruct (Py.lookup "text" iattrs) as [t|] eqn:Ht.
  - cbn [bind].
    destruct (Py.is_None t) eqn:Hn.
    + destruct t; try discriminate. cbn [negb bind pass].
      apply json_tail.
    + cbn [negb bind].
      pose proof (text_block_spec (A := unit) icls iattrs t Ht) as Hb.
      destruct (text_result t) as [v|].
      * rewrite Hb. reflexivity.
      * destruct Hb as [e Hb]. rewrite Hb. reflexivity.
  - cbn [bind pass]. apply json_tail.
Qed.

(** The unwrapper is the function [unwrap] of the shape of its argument. *)
Lemma extract_tool_result_unwrap (response : pyval) :
  extract_tool_result response = Ok (unwrap response).
Proof.
  destruct response as [ | | | | | | |cls attrs| | ]; try reflexivity.
  destruct (Py.lookup "content" attrs) as [c|] eqn:Hc.
  2:{ unfold extract_tool_result, unwrap, first_item, attr, Py.hasattr, Py.has_key.
      rewrite Hc. reflexivity. }
  destruct c as [ |b|z|f|s|items|d| | | ].
  6:{ destruct items as [|item rest]; [|eapply extract_tool_result_item; eauto].
      unfold extract_tool_result, unwrap, first_item, attr, Py.hasattr,
        Py.has_key, Py.getattr.
      rewrite Hc. reflexivity. }
  all: unfold extract_tool_result, unwrap, first_item, attr, Py.hasattr,
         Py.has_key, Py.getattr; rewrite Hc; cbn [bind Py.truthy].
  - reflexivity.
  - destruct b; reflexivity.
  - destruct (z =? 0); reflexivity.
  - destruct (PrimFloat.eqb f zero); reflexivity.
  - destruct s; reflexivity.
  - destruct d; reflexivity.
  - reflexivity.
  - reflexivity.
  - reflexivity.
Qed.

End ClientProperties.

(** *** Results of the unwrapper are not envelopes *)

Section ClientClaims.
Context {L : PyLib}.
Import CalculatorClient Spec.






(** A value looked up in a dictionary of plain data is plain data. *)
Lemma lookup_is_data (k : string) (d : list (string * pyval)) (x : pyval) :
  forallb (fun kv => is_data (snd kv)) d = true ->
  Py.lookup k d = Some x -> is_data x = true.
Proof.
  induction d as [|[k' v'] d IH]; simpl; [discriminate|].
  intros [Hv Hd]%andb_prop.
  destruct (String.eqb k' k); [intros [= <-]; exact Hv | auto].
Qed.











(** *** The claims about the unwrapper *)

(** C1.  For every response envelope [extract_tool_result] returns a value:
    it never raises.  An envelope of none of the known shapes (no non-empty
    content list, or a first item with neither a non-null text nor a [json]
    accessor) is returned unchanged. *)
Theorem extract_tool_result_never_raises (response : pyval) :
  (exists v, extract_tool_result response = Ok v) /\
  (unknown_shape response -> extract_tool_result response = Ok response).
Proof.
  split.
  - unfold extract_tool_result. apply def_try_returns.
  - intros Hshape. rewrite extract_tool_result_unwrap. unfold unwrap.
    destruct (first_item response) as [item|] eqn:Hi; [|reflexivity].
    destruct (Hshape item Hi) as [-> ->]. reflexivity.
Qed.

(** The text branch, for every library: what the unwrapper returns on an
    envelope whose first content item exposes the text [t]. *)
Lemma extract_tool_result_text_law (response item : pyval) (t : string) :
  first_item response = Some item ->
  attr item "text" = Some (PStr t) ->
  extract_tool_result response = Ok
    match json_decode t with
    | Ok j =>
        match of_json j with
        | PDict d =>
            if Py.has_key "result" d then Py.dict_get "result" d else PDict d
        | parsed => parsed
        end
    | Err e =>
        if is_decode_error e then
          if PyStr.contains "." t then
            match float_of_str t with Ok f => PFloat f | Err _ => PStr t end
          else
            match int_of_str t with Ok z => PInt z | Err _ => PStr t end
        else response
    end.
Proof.
  intros Hi Ht. rewrite extract_tool_result_unwrap. unfold unwrap.
  rewrite Hi. unfold non_null_text. rewrite Ht. unfold text_result.
  destruct (json_decode t) as [j|e].
  - unfold result_or_self. destruct (of_json j); reflexivity.
  - destruct (is_decode_error e); reflexivity.
Qed.



End ClientClaims.

(** C2.  On an envelope whose first content item exposes the text [t]: when
    [t] parses as JSON to a mapping with the key [result], the value under
    that key is returned; when it parses otherwise, the parsed value; when
    parsing fails with a decode error, [float(t)] if [t] holds a decimal
    point, else [int(t)], and [t] itself when that conversion fails.  So the
    text [42] yields the integer 42, the text [3.5] the float 3.5 and the
    text [{"result": 7}] the integer 7. *)
Theorem extract_tool_result_text :
  (forall (L : PyLib) (response item : pyval) (t : string),
     Spec.first_item response = Some item ->
     Spec.attr item "text" = Some (PStr t) ->
     CalculatorClient.extract_tool_result response = Ok
       match json_decode t with
       | Ok j =>
           match of_json j with
           | PDict d =>
               if Py.has_key "result" d then Py.dict_get "result" d else PDict d
           | parsed => parsed
           end
       | Err e =>
           if Spec.is_decode_error e then
             if PyStr.contains "." t then
               match float_of_str t with Ok f => PFloat f | Err _ => PStr t end
             else
               match int_of_str t with Ok z => PInt z | Err _ => PStr t end
           else response
       end) /\
  CalculatorClient.extract_tool_result (Spec.text_envelope "42") = Ok (PInt 42) /\
  CalculatorClient.extract_tool_result (Spec.text_envelope "3.5")
    = Ok (PFloat 3.5) /\
  CalculatorClient.extract_tool_result (Spec.text_envelope Spec.result_7_text)
    = Ok (PInt 7).
Proof.
  split; [exact @extract_tool_result_text_law|].
  split; [|split]; vm_compute; reflexivity.
Qed.

(** The unwrapper on texts that are no JSON documents: the literals of
    [int] and [float] that JSON does not have, and a text that is no
    number. *)
Lemma extract_tool_result_text_witness :
  CalculatorClient.extract_tool_result (Spec.text_envelope "+42") = Ok (PInt 42) /\
  CalculatorClient.extract_tool_result (Spec.text_envelope ".5") = Ok (PFloat 0.5) /\
  CalculatorClient.extract_tool_result (Spec.text_envelope "n/a") = Ok (PStr "n/a").
Proof.
  pose proof (proj1 extract_tool_result_text python_ref) as law.
  split; [|split].
  - rewrite (law (Spec.text_envelope "+42") _ "+42" eq_refl eq_refl). vm_compute. reflexivity.
  - rewrite (law (Spec.text_envelope ".5") _ ".5" eq_refl eq_refl). vm_compute. reflexivity.
  - rewrite (law (Spec.text_envelope "n/a") _ "n/a" eq_refl eq_refl). vm_compute. reflexivity.
Defined.

Lemma extract_tool_result_never_raises_witness :
  Spec.unknown_shape (Spec.item_envelope [("data", PStr "iVBORw0KGgo=")]) /\
  CalculatorClient.extract_tool_result
    (Spec.item_envelope [("data", PStr "iVBORw0KGgo=")])
  = Ok (Spec.item_envelope [("data", PStr "iVBORw0KGgo=")]).
Proof.
  assert (H : Spec.unknown_shape
                (Spec.item_envelope [("data", PStr "iVBORw0KGgo=")])).
  { intros item [= <-]. split; reflexivity. }
  split; [exact H|].
  exact (proj2 (extract_tool_result_never_raises _) H).
Defined.




(** ** Strings *)

Lemma startswith_spec (p s : string) :
  PyStr.startswith p s = true <-> exists t, s = p ++ t.
Proof.
  revert s. induction p as [|a p IH]; intros s; simpl.
  - split; eauto.
  - destruct s as [|b s]; simpl.
    + split; [discriminate | intros [t Ht]; discriminate].
    + rewrite andb_true_iff, Ascii.eqb_eq, IH. split.
      * intros [-> [t ->]]. eauto.
      * intros [t [= -> ->]]. eauto.
Qed.

(** [needle in hay] holds exactly when [hay] is [needle] between two
    strings. *)
Lemma contains_spec (needle hay : string) :
  PyStr.contains needle hay = true <->
  exists pre post, hay = pre ++ needle ++ post.
Proof.
  induction hay as [|c hay IH]; simpl.
  - rewrite orb_false_r, startswith_spec. split.
    + intros [t Ht]. exists "", t. exact Ht.
    + intros [pre [post H]]. destruct pre; [eauto | discriminate].
  - rewrite orb_true_iff, startswith_spec, IH. split.
    + intros [[t Ht] | [pre [post ->]]].
      * exists "", t. exact Ht.
      * exists (String c pre), post. reflexivity.
    + intros [pre [post H]]. destruct pre as [|c' pre].
      * left. eauto.
      * right. injection H as _ ->. eauto.
Qed.

Lemma lower_app (a b : string) :
  PyStr.lower (a ++ b) = PyStr.lower a ++ PyStr.lower b.
Proof. induction a; simpl; congruence. Qed.

(** A string whose lowering splits in two splits in two itself. *)
Lemma lower_split (s x y : string) :
  PyStr.lower s = x ++ y ->
  exists a b, s = a ++ b /\ PyStr.lower a = x /\ PyStr.lower b = y.
Proof.
  revert s. induction x as [|c x IH]; intros s H; simpl in H.
  - exists "", s. auto.
  - destruct s as [|d s]; [discriminate|].
    simpl in H. injection H as Hc H.
    destruct (IH s H) as [a [b [-> [Ha Hb]]]].
    exists (String d a), b. simpl. rewrite Hc, Ha. auto.
Qed.

(** The test the search makes is the case-insensitive occurrence of the
    specification. *)
Lemma contains_lower_spec (q s : string) :
  PyStr.contains (PyStr.lower q) (PyStr.lower s) = true <->
  ServerSpec.ci_substring q s.
Proof.
  rewrite contains_spec. unfold ServerSpec.ci_substring. split.
  - intros [x [y H]].
    destruct (lower_split _ _ _ H) as [pre [rest [-> [_ Hrest]]]].
    destruct (lower_split _ _ _ Hrest) as [mid [post [-> [Hmid _]]]].
    eauto.
  - intros [pre [mid [post [-> Hmid]]]].
    exists (PyStr.lower pre), (PyStr.lower post).
    rewrite !lower_app, Hmid. reflexivity.
Qed.

(** ** The calculator server *)

(** The three other tools return the sum, the difference and the product. *)
Lemma arithmetic_tools_spec (a b : float) :
  CalculatorServer.add a b = Ok (a + b)%float /\
  CalculatorServer.subtract a b = Ok (a - b)%float /\
  CalculatorServer.multiply a b = Ok (a * b)%float.
Proof. split; [|split]; reflexivity. Qed.

(** C5.  [divide(a, b)] returns [a / b] when [b] is not zero, and raises
    [ValueError] exactly when [b] equals zero, whatever [a] is.  Equality
    with zero is that of floats: both zeros are zero, NaN is not. *)
Theorem divide_spec (a b : float) :
  (PrimFloat.eqb b zero = false ->
   CalculatorServer.divide a b = Ok (a / b)%float) /\
  (PrimFloat.eqb b zero = true ->
   CalculatorServer.divide a b = Err (new_exn ValueError "Cannot divide by zero")) /\
  (ServerSpec.raises ValueError (CalculatorServer.divide a b) <->
   PrimFloat.eqb b zero = true).
Proof.
  unfold CalculatorServer.divide, CalculatorServer.truediv, ServerSpec.raises.
  destruct (PrimFloat.eqb b zero) eqn:Hb; cbn.
  - split; [discriminate|]. split; [reflexivity|].
    split; [reflexivity|]. intros _. eexists. split; reflexivity.
  - split; [reflexivity|]. split; [discriminate|].
    split; [|discriminate]. intros [e [He _]]. discriminate.
Qed.

Lemma divide_spec_witness :
  PrimFloat.eqb 5 zero = false /\
  CalculatorServer.divide 100 5 = Ok 20%float /\
  PrimFloat.eqb (- 0) zero = true /\
  CalculatorServer.divide 10 (- 0)
    = Err (new_exn ValueError "Cannot divide by zero").
Proof.
  split; [reflexivity|]. split.
  - exact (proj1 (divide_spec 100 5) eq_refl).
  - split; [reflexivity|].
    exact (proj1 (proj2 (divide_spec 10 (- 0))) eq_refl).
Defined.

(** ** The data processor server *)

Section DataProcessorProperties.
Import DataProcessorServer ServerSpec.

Lemma user_matchesb_spec (q : string) (u : pyval) :
  In u (users DATA_STORE) -> (user_matchesb q u = true <-> user_matches q u).
Proof.
  intros Hu. unfold user_matchesb, user_matches.
  rewrite orb_true_iff.
  assert (Hf : forall k,
             match str_field u k with
             | Some s => PyStr.contains (PyStr.lower q) (PyStr.lower s)
             | None => false
             end = true <->
             exists s, str_field u k = Some s /\ ci_substring q s).
  { intros k. destruct (str_field u k) as [s|].
    - rewrite contains_lower_spec. split.
      + intros H. eauto.
      + intros [s' [[= <-] H]]. exact H.
    - split; [discriminate | intros [s [H _]]; discriminate]. }
  rewrite !Hf. reflexivity.
Qed.

Lemma search_users_nonempty (q : string) :
  q <> "" ->
  search_users DATA_STORE q
  = Ok (PList (filter (user_matchesb q) (users DATA_STORE))).
Proof.
  intros Hq%String.eqb_neq. unfold search_users.
  cbn [Py.truthy]. rewrite Hq.
  unfold user_matchesb.
  cbn -[PyStr.contains PyStr.lower].
  repeat match goal with
         | |- context [PyStr.contains ?n ?h] =>
             destruct (PyStr.contains n h); cbn -[PyStr.contains PyStr.lower]
         end; reflexivity.
Qed.

(** C6.  [search_users] raises [ValueError] for the empty query; for every
    other query it returns, in the order of the store, exactly the user
    records whose name or email contains the query whatever the case of the
    letters; for [bob] that is the one record of Bob, whose email is
    [bob@example.com]. *)
Theorem search_users_spec :
  search_users DATA_STORE ""
    = Err (new_exn ValueError "Query must be a non-empty string") /\
  (forall q, q <> "" ->
     search_users DATA_STORE q
       = Ok (PList (filter (user_matchesb q) (users DATA_STORE))) /\
     forall u, In u (users DATA_STORE) ->
               (user_matchesb q u = true <-> user_matches q u)) /\
  search_users DATA_STORE "bob" = Ok (PList [bob]) /\
  str_field bob "email" = Some "bob@example.com".
Proof.
  split; [reflexivity|]. split; [|split; reflexivity].
  intros q Hq. split.
  - apply search_users_nonempty, Hq.
  - intros u Hu. apply user_matchesb_spec, Hu.
Qed.

Lemma search_users_spec_witness :
  "LI" <> "" /\
  search_users DATA_STORE "LI" = Ok (PList [alice; charlie]).
Proof.
  assert (H : "LI" <> "") by discriminate.
  split; [exact H|].
  rewrite (proj1 (proj1 (proj2 search_users_spec) "LI" H)).
  vm_compute. reflexivity.
Defined.

(** [get_user_details] on the store, by cases on the identifier. *)
Lemma get_user_details_cases (user_id : Z) :
  get_user_details DATA_STORE user_id =
    if user_id <? 0 then
      Err (new_exn ValueError ("Invalid user_id: " ++ PyStr.of_int user_id))
    else if 1 =? user_id then Ok (augmented alice)
    else if 2 =? user_id then Ok (augmented bob)
    else if 3 =? user_id then Ok (augmented charlie)
    else Err (new_exn KeyError
                ("User with id " ++ PyStr.of_int user_id ++ " not found")).
Proof.
  unfold get_user_details.
  destruct (user_id <? 0); [reflexivity|].
  cbn -[Z.eqb PyStr.of_int PyStr.repr].
  destruct (1 =? user_id); [reflexivity|]. cbn -[Z.eqb PyStr.of_int PyStr.repr].
  destruct (2 =? user_id); [reflexivity|]. cbn -[Z.eqb PyStr.of_int PyStr.repr].
  destruct (3 =? user_id); reflexivity.
Qed.

Lemma has_id_store (id : Z) (u : pyval) :
  In u (users DATA_STORE) -> has_id id u = true ->
  (id = 1 /\ u = alice) \/ (id = 2 /\ u = bob) \/ (id = 3 /\ u = charlie).
Proof.
  intros [<-|[<-|[<-|[]]]] H; cbn -[Z.eqb] in H; apply Z.eqb_eq in H; subst id; auto.
Qed.

(** C7 fails for a negative identifier: no user has the identifier -1, and
    the call raises [ValueError], not [KeyError]. *)
Lemma get_user_details_negative_not_KeyError :
  existsb (has_id (-1)) (users DATA_STORE) = false /\
  get_user_details DATA_STORE (-1)
    = Err (new_exn ValueError "Invalid user_id: -1") /\
  is_a KeyError (new_exn ValueError "Invalid user_id: -1") = false.
Proof. split; [|split]; reflexivity. Qed.

(** C7, as amended.  [get_user_details(user_id)] returns the stored record
    of the user with that identifier, with the fields [account_status] =
    [active] and [created_at] = [2024-01-15] added, if and only if the store
    has a user with that identifier; it raises [KeyError] when [user_id] is
    not negative and no user has it.  So the call for 2 returns Bob's
    augmented record and the call for 999 raises [KeyError]. *)
Theorem get_user_details_spec (user_id : Z) :
  (forall u, In u (users DATA_STORE) -> has_id user_id u = true ->
             get_user_details DATA_STORE user_id = Ok (augmented u)) /\
  (forall r, get_user_details DATA_STORE user_id = Ok r ->
             exists u, In u (users DATA_STORE) /\ has_id user_id u = true
                       /\ r = augmented u) /\
  (0 <= user_id ->
   (forall u, In u (users DATA_STORE) -> has_id user_id u = false) ->
   get_user_details DATA_STORE user_id
     = Err (new_exn KeyError
              ("User with id " ++ PyStr.of_int user_id ++ " not found"))) /\
  get_user_details DATA_STORE 2 = Ok (augmented bob) /\
  raises KeyError (get_user_details DATA_STORE 999).
Proof.
  split; [|split; [|split; [|split]]].
  - intros u Hu Hid.
    destruct (has_id_store _ _ Hu Hid) as [[-> ->]|[[-> ->]|[-> ->]]];
      reflexivity.
  - intros r. rewrite get_user_details_cases.
    destruct (user_id <? 0); [discriminate|].
    destruct (1 =? user_id) eqn:H1;
      [|destruct (2 =? user_id) eqn:H2;
          [|destruct (3 =? user_id) eqn:H3; [|discriminate]]];
      intros [= <-];
      [exists alice | exists bob | exists charlie];
      cbn -[Z.eqb]; auto 10.
  - intros Hpos Hnone. rewrite get_user_details_cases.
    apply Z.ltb_ge in Hpos. rewrite Hpos.
    pose proof (Hnone alice ltac:(cbn; auto)) as H1.
    pose proof (Hnone bob ltac:(cbn; auto)) as H2.
    pose proof (Hnone charlie ltac:(cbn; auto 10)) as H3.
    cbn -[Z.eqb] in H1, H2, H3. rewrite H1, H2, H3. reflexivity.
  - reflexivity.
  - eexists. split; reflexivity.
Qed.

Lemma get_user_details_spec_witness :
  0 <= 7 /\
  (forall u, In u (users DATA_STORE) -> has_id 7 u = false) /\
  get_user_details DATA_STORE 7
    = Err (new_exn KeyError "User with id 7 not found") /\
  In charlie (users DATA_STORE) /\ has_id 3 charlie = true /\
  get_user_details DATA_STORE 3 = Ok (augmented charlie).
Proof.
  assert (Hnone : forall u, In u (users DATA_STORE) -> has_id 7 u = false).
  { intros u [<-|[<-|[<-|[]]]]; reflexivity. }
  assert (Hin : In charlie (users DATA_STORE)) by (cbn; auto 10).
  split; [lia|]. split; [exact Hnone|]. split.
  - exact (proj1 (proj2 (proj2 (get_user_details_spec 7))) ltac:(lia) Hnone).
  - split; [exact Hin|]. split; [reflexivity|].
    exact (proj1 (get_user_details_spec 3) charlie Hin eq_refl).
Defined.

(** C10.  For every negative [user_id], and whatever the store holds,
    [get_user_details] raises [ValueError]: the store is not looked at.  For
    an identifier that is not negative and that no user of the store has it
    raises [KeyError], and neither class derives from the other. *)
Theorem get_user_details_negative (data : store) (user_id : Z) :
  user_id < 0 ->
  get_user_details data user_id
    = Err (new_exn ValueError ("Invalid user_id: " ++ PyStr.of_int user_id)) /\
  (forall absent, 0 <= absent ->
     existsb (has_id absent) (users DATA_STORE) = false ->
     get_user_details DATA_STORE absent
       = Err (new_exn KeyError
                ("User with id " ++ PyStr.of_int absent ++ " not found"))) /\
  issubclass ValueError KeyError = false /\
  issubclass KeyError ValueError = false.
Proof.
  intros Hneg. split; [|split; [|split; reflexivity]].
  - apply Z.ltb_lt in Hneg. unfold get_user_details. rewrite Hneg. reflexivity.
  - intros absent Hpos Hnone. rewrite get_user_details_cases.
    apply Z.ltb_ge in Hpos. rewrite Hpos.
    cbn -[Z.eqb] in Hnone.
    apply orb_false_elim in Hnone as [H1 Hnone].
    apply orb_false_elim in Hnone as [H2 Hnone].
    apply orb_false_elim in Hnone as [H3 _].
    rewrite H1, H2, H3. reflexivity.
Qed.

(** A store whose one user record is no dictionary: looking it up raises
    [TypeError], which the call turns into [RuntimeError]; a negative
    identifier is refused before that. *)
Lemma get_user_details_negative_witness :
  -5 < 0 /\
  get_user_details {| users := [PNone]; products := [] |} (-5)
    = Err (new_exn ValueError "Invalid user_id: -5") /\
  raises RuntimeError
    (get_user_details {| users := [PNone]; products := [] |} 5) /\
  get_user_details DATA_STORE 0
    = Err (new_exn KeyError "User with id 0 not found").
Proof.
  split; [lia|].
  pose proof (get_user_details_negative
                {| users := [PNone]; products := [] |} (-5) ltac:(lia))
    as [Hneg [Habsent _]].
  split; [exact Hneg|]. split.
  - eexists. split; reflexivity.
  - exact (Habsent 0 ltac:(lia) eq_refl).
Defined.

(** [get_product_by_id] on the store, by cases on the identifier. *)
Lemma get_product_by_id_cases (product_id : Z) :
  get_product_by_id DATA_STORE product_id =
    if 101 =? product_id then Ok laptop
    else if 102 =? product_id then Ok mouse
    else if 103 =? product_id then Ok keyboard
    else Ok (not_found_payload product_id [PInt 101; PInt 102; PInt 103]).
Proof.
  unfold get_product_by_id.
  cbn -[Z.eqb PyStr.of_int].
  destruct (101 =? product_id); [reflexivity|]. cbn -[Z.eqb PyStr.of_int].
  destruct (102 =? product_id); [reflexivity|]. cbn -[Z.eqb PyStr.of_int].
  destruct (103 =? product_id); reflexivity.
Qed.

(** C9.  For a [product_id] that no product has, [get_product_by_id] returns
    (it does not raise) a mapping with an [error] message and, under
    [available_ids], the identifier of every stored product: 101, 102 and
    103; for the identifier of a product it returns the stored record. *)
Theorem get_product_by_id_spec (product_id : Z) :
  ((forall p, In p (products DATA_STORE) -> has_id product_id p = false) ->
   get_product_by_id DATA_STORE product_id
     = Ok (not_found_payload product_id
             (map id_of (products DATA_STORE)))) /\
  (forall p, In p (products DATA_STORE) -> has_id product_id p = true ->
             get_product_by_id DATA_STORE product_id = Ok p) /\
  map id_of (products DATA_STORE) = [PInt 101; PInt 102; PInt 103] /\
  get_product_by_id DATA_STORE 999
    = Ok (PDict [("error", PStr "Product 999 not found");
                 ("available_ids", PList [PInt 101; PInt 102; PInt 103])]).
Proof.
  split; [|split; [|split; reflexivity]].
  - intros Hnone. rewrite get_product_by_id_cases.
    pose proof (Hnone laptop ltac:(cbn; auto)) as H1.
    pose proof (Hnone mouse ltac:(cbn; auto)) as H2.
    pose proof (Hnone keyboard ltac:(cbn; auto 10)) as H3.
    cbn -[Z.eqb] in H1, H2, H3. rewrite H1, H2, H3. reflexivity.
  - intros p [<-|[<-|[<-|[]]]] H; cbn -[Z.eqb] in H; apply Z.eqb_eq in H;
      subst product_id; reflexivity.
Qed.

Lemma get_product_by_id_spec_witness :
  (forall p, In p (products DATA_STORE) -> has_id 7 p = false) /\
  get_product_by_id DATA_STORE 7
    = Ok (PDict [("error", PStr "Product 7 not found");
                 ("available_ids", PList [PInt 101; PInt 102; PInt 103])]) /\
  In mouse (products DATA_STORE) /\ has_id 102 mouse = true /\
  get_product_by_id DATA_STORE 102 = Ok mouse.
Proof.
  assert (Hnone : forall p, In p (products DATA_STORE) -> has_id 7 p = false).
  { intros p [<-|[<-|[<-|[]]]]; reflexivity. }
  assert (Hin : In mouse (products DATA_STORE)) by (cbn; auto 10).
  split; [exact Hnone|]. split.
  - exact (proj1 (get_product_by_id_spec 7) Hnone).
  - split; [exact Hin|]. split; [reflexivity|].
    exact (proj1 (proj2 (get_product_by_id_spec 102)) mouse Hin eq_refl).
Defined.

(** *** What the arithmetic of the average can raise *)

Lemma no_ValueError_bind {R A B : Type} (c : outcome R A)
    (k : A -> outcome R B) :
  no_ValueError c -> (forall a, no_ValueError (k a)) -> no_ValueError (bind c k).
Proof.
  intros Hc Hk e. destruct c as [a|r|e']; simpl.
  - apply Hk.
  - discriminate.
  - intros [= ->]. apply Hc. reflexivity.
Qed.

Lemma no_ValueError_Normal {R A : Type} (a : A) :
  no_ValueError (R := R) (Normal a).
Proof. intros e. discriminate. Qed.

Lemma no_ValueError_Returned {R A : Type} (r : R) :
  no_ValueError (A := A) (Returned r).
Proof. intros e. discriminate. Qed.

Lemma no_ValueError_raise {R A : Type} (c : exc_class) (msg : string) :
  issubclass c ValueError = false -> no_ValueError (R := R) (A := A) (raise c msg).
Proof.
  intros Hc e [= <-]. unfold is_a. destruct c; try discriminate; reflexivity.
Qed.

Create HintDb py.

(** Case analysis on the tests of a block. *)
Ltac case_tests :=
  repeat match goal with
         | |- no_ValueError (if ?c then _ else _) => destruct c
         end.

#[local] Hint Resolve no_ValueError_Normal no_ValueError_Returned : py.
#[local] Hint Extern 1 (no_ValueError (raise _ _)) =>
  apply no_ValueError_raise; reflexivity : py.

Lemma no_ValueError_float_of_int {R : Type} (z : Z) :
  no_ValueError (PyNum.float_of_int (R := R) z).
Proof.
  unfold PyNum.float_of_int. case_tests; auto with py.
Qed.

#[local] Hint Resolve no_ValueError_float_of_int : py.

Lemma no_ValueError_getitem_key {R : Type} (v : pyval) (k : string) :
  no_ValueError (Py.getitem_key (R := R) v k).
Proof.
  destruct v; simpl; unfold Py.not_subscriptable; auto with py.
  destruct (Py.lookup k entries); auto with py.
Qed.

Lemma no_ValueError_add {R : Type} (a b : pyval) :
  no_ValueError (Py.add (R := R) a b).
Proof.
  destruct a, b; cbn -[PyNum.float_of_int];
    try (destruct b0); try (destruct b);
    auto with py;
    apply no_ValueError_bind; auto with py.
Qed.

Lemma no_ValueError_sum_from {R : Type} (f : pyval -> outcome R pyval)
    (xs : list pyval) :
  (forall x, no_ValueError (f x)) ->
  forall acc, no_ValueError (Gen.sum_from acc f xs).
Proof.
  intros Hf. induction xs as [|x xs IH]; intros acc; simpl.
  - auto with py.
  - apply no_ValueError_bind; [apply Hf|]. intros y.
    apply no_ValueError_bind; [apply no_ValueError_add | apply IH].
Qed.

Lemma no_ValueError_truediv_int {R : Type} (a : pyval) (n : Z) :
  no_ValueError (Py.truediv_int (R := R) a n).
Proof.
  destruct a; cbn -[PyNum.float_of_int PyNum.float_of_ratio]; auto with py.
  - case_tests; auto with py.
  - case_tests; auto with py.
  - apply no_ValueError_bind; auto with py.
    intros y. destruct (PrimFloat.eqb y zero); auto with py.
Qed.

Lemma no_ValueError_round {R : Type} (v : pyval) (ndigits : nat) :
  no_ValueError (Py.round (R := R) v ndigits).
Proof. destruct v; simpl; auto with py. Qed.

(** With a product in the store, the call returns or raises
    [RuntimeError]. *)
Lemma average_price_nonempty (data : store) :
  products data <> [] ->
  ~ raises ValueError (calculate_average_product_price data).
Proof.
  intros Hne [e [Hcall Hclass]].
  unfold calculate_average_product_price in Hcall.
  destruct (products data) as [|p ps] eqn:Hp; [contradiction|].
  cbn [Py.truthy negb] in Hcall.
  match type of Hcall with
  | def (try_except2 (bind pass (fun _ => ?body)) _ _ _ _) = _ =>
      assert (Hbody : no_ValueError body)
  end.
  { apply no_ValueError_bind;
      [apply no_ValueError_sum_from; intros x; apply no_ValueError_getitem_key|].
    intros total. apply no_ValueError_bind; [apply no_ValueError_truediv_int|].
    intros average. apply no_ValueError_bind; [apply no_ValueError_round|].
    intros rounded. auto with py. }
  cbn [bind pass] in Hcall.
  match type of Hcall with
  | def (try_except2 ?body _ _ _ _) = _ => destruct body as [[]|r|e'] eqn:Hb
  end.
  - discriminate.
  - specialize (Hbody e' eq_refl). unfold is_a in Hbody.
    unfold try_except2, matches in Hcall.
    simpl in Hbody, Hcall. rewrite Hbody in Hcall. simpl in Hcall.
    injection Hcall as <-. discriminate.
Qed.

(** C8.  On the store of three products
    [calculate_average_product_price] returns the mean of the prices
    rounded to two decimals, which is (999.99 + 29.99 + 79.99) / 3 rounded
    to two decimals, 369.99; it raises [ValueError] exactly when the store
    has no product. *)
Theorem calculate_average_product_price_spec :
  calculate_average_product_price DATA_STORE = Ok (PFloat 369.99) /\
  PyNum.round ((999.99 + 29.99 + 79.99) / 3)%float 2 = 369.99%float /\
  (forall data : store,
     raises ValueError (calculate_average_product_price data)
     <-> products data = []).
Proof.
  split; [vm_compute; reflexivity|]. split; [vm_compute; reflexivity|].
  intros data. split.
  - intros Hraise. destruct (products data) eqn:Hp; [reflexivity|].
    exfalso. apply (average_price_nonempty data); [congruence | exact Hraise].
  - intros Hp. unfold calculate_average_product_price. rewrite Hp.
    eexists. split; reflexivity.
Qed.

Lemma calculate_average_product_price_witness :
  raises ValueError
    (calculate_average_product_price {| users := []; products := [] |}).
Proof.
  exact (proj2 (proj2 (proj2 calculate_average_product_price_spec)
                  {| users := []; products := [] |}) eq_refl).
Defined.

End DataProcessorProperties.

(** The compensated sum of the three prices is the sum from left to right,
    so the average does not depend on the version of the interpreter. *)
Remark prices_sum_compensated :
  PyNum.compensated_sum zero zero [999.99; 29.99; 79.99]%float
  = (0 + 999.99 + 29.99 + 79.99)%float.
Proof. vm_compute. reflexivity. Qed.

(** * Further properties *)

(** ** Dictionaries *)

Lemma lookup_dict_set_same (k : string) (v : pyval) (d : list (string * pyval)) :
  Py.lookup k (Py.dict_set k v d) = Some v.
Proof.
  induction d as [|[k' v'] d IH]; simpl.
  - rewrite String.eqb_refl. reflexivity.
  - destruct (String.eqb k' k) eqn:E; simpl; rewrite E; [reflexivity | exact IH].
Qed.

Lemma lookup_dict_set_other (k k' : string) (v : pyval)
    (d : list (string * pyval)) :
  k' <> k -> Py.lookup k' (Py.dict_set k v d) = Py.lookup k' d.
Proof.
  intros Hk. induction d as [|[k0 v0] d IH]; simpl.
  - destruct (String.eqb k k') eqn:E; [|reflexivity].
    apply String.eqb_eq in E. congruence.
  - destruct (String.eqb k0 k) eqn:E; simpl.
    + apply String.eqb_eq in E. subst k0.
      destruct (String.eqb k k') eqn:E'; [|reflexivity].
      apply String.eqb_eq in E'. congruence.
    + rewrite IH. reflexivity.
Qed.

(** ** Blocks, handlers and generators *)

(** A function whose handlers only raise returns what its body returns. *)
Lemma def_try2_Ok {R : Type} (body : outcome R Empty_set)
    (c1 c2 : list exc_class) (msg : exn -> string) (r : R) :
  def (try_except2 body c1 reraise c2 (fun e => raise RuntimeError (msg e)))
    = Ok r ->
  body = Returned r.
Proof.
  destruct body as [[]|r'|e]; unfold try_except2.
  - intros [= ->]. reflexivity.
  - destruct (matches c1 e); [discriminate|].
    destruct (matches c2 e); discriminate.
Qed.

(** What such a function raises: an exception of the first clause as it is,
    any other one as the second handler makes it. *)
Lemma def_try2_Err {R : Type} (body : outcome R Empty_set)
    (c1 : list exc_class) (msg : exn -> string) (e : exn) :
  def (try_except2 body c1 reraise [Exception]
         (fun e => raise RuntimeError (msg e)))
    = Err e ->
  exists e0, body = Raised e0 /\
    ((matches c1 e0 = true /\ e = e0) \/
     (matches c1 e0 = false /\ e = new_exn RuntimeError (msg e0))).
Proof.
  destruct body as [[]|r'|e0]; [discriminate|].
  unfold try_except2. rewrite matches_Exception.
  destruct (matches c1 e0) eqn:Hm; intros [= <-]; eauto.
Qed.

Section Generators.
Context {R : Type}.
Variable cond : pyval -> outcome R bool.

(** The generator stops at the first element its test accepts. *)
Lemma next_or_None_first (pre post : list pyval) (u : pyval) :
  Forall (fun x => cond x = Normal false) pre ->
  cond u = Normal true ->
  Gen.next_or_None cond (pre ++ u :: post) = Normal u.
Proof.
  intros Hpre Hu. induction Hpre as [|x pre Hx _ IH]; simpl.
  - rewrite Hu. reflexivity.
  - rewrite Hx. simpl. exact IH.
Qed.

(** It raises what the test raises on the first element it cannot skip. *)
Lemma next_or_None_raises (pre post : list pyval) (u : pyval) (e : exn) :
  Forall (fun x => cond x = Normal false) pre ->
  cond u = Raised e ->
  Gen.next_or_None cond (pre ++ u :: post) = Raised e.
Proof.
  intros Hpre Hu. induction Hpre as [|x pre Hx _ IH]; simpl.
  - rewrite Hu. reflexivity.
  - rewrite Hx. simpl. exact IH.
Qed.

(** It yields [None] when the test refuses every element. *)
Lemma next_or_None_none (xs : list pyval) :
  Forall (fun x => cond x = Normal false) xs ->
  Gen.next_or_None cond xs = Normal PNone.
Proof.
  intros Hxs. induction Hxs as [|x xs Hx _ IH]; simpl; [reflexivity|].
  rewrite Hx. simpl. exact IH.
Qed.

(** What it yields is [None] or the first element the test accepts. *)
Lemma next_or_None_inv (xs : list pyval) (u : pyval) :
  Gen.next_or_None cond xs = Normal u ->
  u = PNone \/ (In u xs /\ cond u = Normal true).
Proof.
  induction xs as [|x xs IH]; simpl.
  - intros [= <-]. now left.
  - destruct (cond x) as [[|]|r|e] eqn:Hx; simpl; try discriminate.
    + intros [= <-]. right. auto.
    + intros H. destruct (IH H) as [->|[Hin Hc]]; auto.
Qed.

(** A test that has no [return] gives a generator that has none. *)
Lemma next_or_None_not_Returned (xs : list pyval) (r : R) :
  (forall x r', cond x <> Returned r') ->
  Gen.next_or_None cond xs <> Returned r.
Proof.
  intros Hc. induction xs as [|x xs IH]; simpl; [discriminate|].
  destruct (cond x) as [[|]|r'|e] eqn:Hx; simpl; try discriminate.
  - exact IH.
  - now destruct (Hc x r').
Qed.

(** The three ways a search ends, when the test has no [return]: at the
    first element the test accepts, at the end of the list, or at the first
    element on which the test raises. *)
Lemma next_or_None_cases (xs : list pyval) :
  (forall x r, cond x <> Returned r) ->
  (exists pre u post,
     xs = (pre ++ u :: post)%list /\
     Forall (fun x => cond x = Normal false) pre /\
     cond u = Normal true /\ Gen.next_or_None cond xs = Normal u) \/
  (Forall (fun x => cond x = Normal false) xs /\
   Gen.next_or_None cond xs = Normal PNone) \/
  (exists pre u post e,
     xs = (pre ++ u :: post)%list /\
     Forall (fun x => cond x = Normal false) pre /\
     cond u = Raised e /\ Gen.next_or_None cond xs = Raised e).
Proof.
  intros Hc. induction xs as [|x xs IH].
  - right. left. split; [constructor | reflexivity].
  - simpl. destruct (cond x) as [[|]|r|e] eqn:Hx; simpl.
    + left. exists [], x, xs. repeat split; auto.
    + destruct IH as [(pre & u & post & -> & Hpre & Hu & Hn)
                     |[[Hall Hn]|(pre & u & post & e & -> & Hpre & Hu & Hn)]].
      * left. exists (x :: pre), u, post. repeat split; auto.
      * right. left. split; auto.
      * right. right. exists (x :: pre), u, post, e. repeat split; auto.
    + now destruct (Hc x r).
    + right. right. exists [], x, xs, e. repeat split; auto.
Qed.

End Generators.

Section Comprehensions.
Context {R : Type}.

(** A comprehension with a test that never raises is a filter. *)
Lemma filter_if_filter (cond : pyval -> outcome R bool) (f : pyval -> bool)
    (xs : list pyval) :
  Forall (fun x => cond x = Normal (f x)) xs ->
  Gen.filter_if cond xs = Normal (filter f xs).
Proof.
  intros Hxs. induction Hxs as [|x xs Hx _ IH]; simpl; [reflexivity|].
  rewrite Hx, IH. simpl. destruct (f x); reflexivity.
Qed.

(** Whatever the test does, the list a comprehension yields is a filter of
    the list it ran over. *)
Lemma filter_if_inv (cond : pyval -> outcome R bool) (xs l : list pyval) :
  Gen.filter_if cond xs = Normal l ->
  l = filter (fun x => match cond x with Normal b => b | _ => false end) xs.
Proof.
  revert l. induction xs as [|x xs IH]; simpl; intros l.
  - intros [= <-]. reflexivity.
  - destruct (cond x) as [b|r|e]; simpl; try discriminate.
    destruct (Gen.filter_if cond xs) as [rest|r|e]; simpl; try discriminate.
    intros [= <-]. rewrite (IH rest eq_refl). destruct b; reflexivity.
Qed.

(** [map_each] with a function that never raises is a map. *)
Lemma map_each_map (g : pyval -> outcome R pyval) (f : pyval -> pyval)
    (xs : list pyval) :
  Forall (fun x => g x = Normal (f x)) xs ->
  Gen.map_each g xs = Normal (map f xs).
Proof.
  intros Hxs. induction Hxs as [|x xs Hx _ IH]; simpl; [reflexivity|].
  rewrite Hx, IH. reflexivity.
Qed.


(** What a comprehension raises, its test raises on an element. *)
Lemma filter_if_Raised_inv (cond : pyval -> outcome R bool) (xs : list pyval)
    (e : exn) :
  Gen.filter_if cond xs = Raised e -> exists x, In x xs /\ cond x = Raised e.
Proof.
  induction xs as [|x xs IH]; simpl; [discriminate|].
  destruct (cond x) as [b|r|e'] eqn:Hx; simpl; try discriminate.
  - destruct (Gen.filter_if cond xs) as [l|r|e'] eqn:Hl; simpl;
      try discriminate.
    intros [= ->]. destruct (IH eq_refl) as [y [Hy Hc]]. eauto.
  - intros [= ->]. eauto.
Qed.

Lemma filter_if_not_Returned (cond : pyval -> outcome R bool)
    (xs : list pyval) (r : R) :
  (forall x r', cond x <> Returned r') ->
  Gen.filter_if cond xs <> Returned r.
Proof.
  intros Hc. induction xs as [|x xs IH]; simpl; [discriminate|].
  destruct (cond x) as [b|r'|e] eqn:Hx; simpl; try discriminate.
  - destruct (Gen.filter_if cond xs) as [l|r'|e]; simpl; try discriminate.
    intros [= ->]. now apply IH.
  - now destruct (Hc x r').
Qed.

End Comprehensions.

(** ** Records and identifiers *)

Section IdTest.
Import ServerSpec MoreSpec.
Context {R : Type}.

Lemma id_test_other (id : Z) (u : pyval) :
  other_id id u = true -> id_test (R := R) id u = Normal false.
Proof.
  unfold other_id, id_test. destruct u; try discriminate. simpl.
  destruct (Py.lookup "id" entries); [|discriminate]. simpl.
  destruct (Py.eq_int p id); [discriminate | reflexivity].
Qed.

Lemma id_test_other_inv (id : Z) (u : pyval) :
  id_test (R := R) id u = Normal false -> other_id id u = true.
Proof.
  unfold other_id, id_test. destruct u; try discriminate. simpl.
  destruct (Py.lookup "id" entries); [|discriminate]. simpl.
  destruct (Py.eq_int p id); [discriminate | reflexivity].
Qed.

Lemma forall_other_id_inv (id : Z) (xs : list pyval) :
  Forall (fun x => id_test (R := R) id x = Normal false) xs ->
  forallb (other_id id) xs = true.
Proof.
  rewrite forallb_forall, Forall_forall. intros H x Hx.
  apply id_test_other_inv, H, Hx.
Qed.

(** The test raises what the lookup of [id] raises. *)
Lemma id_test_raises (id : Z) (u : pyval) (e : exn) :
  id_test (R := R) id u = Raised e ->
  Py.getitem_key (R := R) u "id" = Raised e.
Proof.
  unfold id_test. destruct (Py.getitem_key u "id"); simpl; congruence.
Qed.

(** A record with another identifier has one. *)
Lemma other_id_id_of (id : Z) (u : pyval) :
  other_id id u = true -> Py.getitem_key (R := R) u "id" = Normal (id_of u).
Proof.
  unfold other_id, id_of, Py.dict_get. destruct u; try discriminate. simpl.
  destruct (Py.lookup "id" entries); [reflexivity | discriminate].
Qed.

Lemma id_test_has (id : Z) (u : pyval) :
  has_id id u = true <-> id_test (R := R) id u = Normal true.
Proof.
  unfold has_id, id_test. destruct u; simpl; try (split; discriminate).
  destruct (Py.lookup "id" entries); simpl; [|split; discriminate].
  split; [intros -> | intros [= ->]]; reflexivity.
Qed.

Lemma id_test_lacks (id : Z) (u : pyval) :
  lacks_key "id" u = true -> id_test (R := R) id u = Raised (new_exn KeyError "id").
Proof.
  unfold lacks_key, id_test, Py.has_key. destruct u; try discriminate. simpl.
  destruct (Py.lookup "id" entries); [discriminate | reflexivity].
Qed.

Lemma id_test_not_Returned (id : Z) (u : pyval) (r : R) :
  id_test id u <> Returned r.
Proof.
  unfold id_test, Py.getitem_key.
  destruct u; simpl; try discriminate.
  destruct (Py.lookup _ _); simpl; discriminate.
Qed.

Lemma forall_other_id (id : Z) (xs : list pyval) :
  forallb (other_id id) xs = true ->
  Forall (fun x => id_test (R := R) id x = Normal false) xs.
Proof.
  rewrite forallb_forall, Forall_forall. intros H x Hx.
  apply id_test_other, H, Hx.
Qed.

(** A record that has an identifier is a dictionary that is not empty. *)
Lemma has_id_truthy (id : Z) (u : pyval) :
  has_id id u = true -> exists d, u = PDict d /\ Py.truthy u = true.
Proof.
  unfold has_id. destruct u; try discriminate.
  destruct entries; [discriminate|]. eauto.
Qed.

End IdTest.

(** ** get_user_details on any store *)

Section UserDetails.
Import DataProcessorServer Spec ServerSpec MoreSpec.

(** X1.  Whatever the store holds, what [get_user_details] returns is the
    record of a stored user with the identifier asked for, which is not
    negative: a dictionary that has [active] under [account_status] and
    [2024-01-15] under [created_at], whatever the stored record had there,
    and under every other key what the stored record has. *)
Theorem get_user_details_sound (data : store) (user_id : Z) (r : pyval) :
  get_user_details data user_id = Ok r ->
  0 <= user_id /\
  exists d d',
    In (PDict d) (users data) /\ has_id user_id (PDict d) = true /\
    r = PDict d' /\
    Py.lookup "account_status" d' = Some (PStr "active") /\
    Py.lookup "created_at" d' = Some (PStr "2024-01-15") /\
    forall k, k <> "account_status" -> k <> "created_at" ->
              Py.lookup k d' = Py.lookup k d.
Proof.
  unfold get_user_details. intros Hcall. apply def_try2_Ok in Hcall.
  destruct (user_id <? 0) eqn:Hneg; [discriminate|].
  apply Z.ltb_ge in Hneg. split; [exact Hneg|].
  cbn [bind pass] in Hcall.
  destruct (Gen.next_or_None _ (users data)) as [u|r'|e] eqn:Hnext;
    try discriminate;
    [|now destruct (next_or_None_not_Returned _ _ _
                      (id_test_not_Returned user_id) Hnext)].
  cbn [bind] in Hcall.
  destruct (next_or_None_inv _ _ _ Hnext) as [->|[Hin Hu]]; [discriminate|].
  apply (proj2 (id_test_has user_id u)) in Hu.
  destruct (has_id_truthy _ _ Hu) as [d [-> Ht]].
  rewrite Ht in Hcall. cbn in Hcall. injection Hcall as <-.
  exists d. eexists. repeat split; try eassumption.
  - rewrite lookup_dict_set_other by discriminate. apply lookup_dict_set_same.
  - apply lookup_dict_set_same.
  - intros k H1 H2. rewrite !lookup_dict_set_other by congruence. reflexivity.
Qed.

Lemma get_user_details_sound_witness :
  let stored := [("id", PFloat 7); ("created_at", PStr "1999-12-31")] in
  let data := {| users := [PDict stored]; products := [] |} in
  let r := PDict [("id", PFloat 7); ("created_at", PStr "2024-01-15");
                  ("account_status", PStr "active")] in
  get_user_details data 7 = Ok r /\
  0 <= 7 /\
  exists d d',
    In (PDict d) (users data) /\ has_id 7 (PDict d) = true /\
    r = PDict d' /\
    Py.lookup "account_status" d' = Some (PStr "active") /\
    Py.lookup "created_at" d' = Some (PStr "2024-01-15") /\
    forall k, k <> "account_status" -> k <> "created_at" ->
              Py.lookup k d' = Py.lookup k d.
Proof.
  intros stored data r.
  assert (H : get_user_details data 7 = Ok r) by (vm_compute; reflexivity).
  split; [exact H|].
  exact (get_user_details_sound data 7 r H).
Defined.

(** X2.  In any store, when every user before a record has an identifier
    that differs from [user_id], the record has the identifier [user_id] and
    [user_id] is not negative, [get_user_details] returns that record with
    the two fields set: of two users with the same identifier the first is
    the one returned. *)
Theorem get_user_details_first_match (data : store) (user_id : Z)
    (pre post : list pyval) (d : list (string * pyval)) :
  0 <= user_id ->
  users data = (pre ++ PDict d :: post)%list ->
  forallb (other_id user_id) pre = true ->
  has_id user_id (PDict d) = true ->
  get_user_details data user_id = Ok (PDict (with_details d)).
Proof.
  intros Hpos Husers Hpre Hd. unfold get_user_details.
  apply Z.ltb_ge in Hpos. rewrite Hpos, Husers. cbn [bind pass].
  pose proof (next_or_None_first (R := pyval) (id_test user_id) pre post
                (PDict d) (forall_other_id _ _ Hpre)
                (proj1 (id_test_has _ _) Hd)) as Hnext.
  unfold id_test in Hnext. rewrite Hnext. cbn [bind].
  destruct (has_id_truthy _ _ Hd) as [d0 [_ Ht]]. rewrite Ht.
  reflexivity.
Qed.

Lemma get_user_details_first_match_witness :
  0 <= 2 /\
  get_user_details
    {| users := [alice; PDict [("id", PInt 2); ("name", PStr "Bob")]; bob];
       products := [] |} 2
  = Ok (PDict [("id", PInt 2); ("name", PStr "Bob");
               ("account_status", PStr "active");
               ("created_at", PStr "2024-01-15")]).
Proof.
  split; [lia|].
  exact (get_user_details_first_match
           {| users := [alice; PDict [("id", PInt 2); ("name", PStr "Bob")]; bob];
              products := [] |} 2 [alice] [bob]
           [("id", PInt 2); ("name", PStr "Bob")]
           ltac:(lia) eq_refl eq_refl eq_refl).
Defined.

(** X3.  In any store whose users all have an identifier, a [user_id] that
    is not negative and that none of them has makes [get_user_details] raise
    [KeyError] with the message of the source. *)
Theorem get_user_details_absent (data : store) (user_id : Z) :
  0 <= user_id ->
  forallb (other_id user_id) (users data) = true ->
  get_user_details data user_id
    = Err (new_exn KeyError
             ("User with id " ++ PyStr.of_int user_id ++ " not found")).
Proof.
  intros Hpos Hall. unfold get_user_details.
  apply Z.ltb_ge in Hpos. rewrite Hpos. cbn [bind pass].
  pose proof (next_or_None_none (R := pyval) (id_test user_id) (users data)
                (forall_other_id _ _ Hall)) as Hnext.
  unfold id_test in Hnext. rewrite Hnext. reflexivity.
Qed.

Lemma get_user_details_absent_witness :
  0 <= 7 /\
  forallb (other_id 7) (users DATA_STORE) = true /\
  get_user_details DATA_STORE 7
    = Err (new_exn KeyError "User with id 7 not found").
Proof.
  split; [lia|]. split; [reflexivity|].
  exact (get_user_details_absent DATA_STORE 7 ltac:(lia) eq_refl).
Defined.

(** X4.  A stored record with no [id], met before any user with the
    identifier asked for, makes [get_user_details] raise the [KeyError] of
    the failed lookup: the handler lets it through as it does the
    [KeyError] of a user that is not found. *)
Theorem get_user_details_record_without_id (data : store) (user_id : Z)
    (pre post : list pyval) (u : pyval) :
  0 <= user_id ->
  users data = (pre ++ u :: post)%list ->
  forallb (other_id user_id) pre = true ->
  lacks_key "id" u = true ->
  get_user_details data user_id = Err (new_exn KeyError "id").
Proof.
  intros Hpos Husers Hpre Hu. unfold get_user_details.
  apply Z.ltb_ge in Hpos. rewrite Hpos, Husers. cbn [bind pass].
  pose proof (next_or_None_raises (R := pyval) (id_test user_id) pre post u
                (new_exn KeyError "id") (forall_other_id _ _ Hpre)
                (id_test_lacks _ _ Hu)) as Hnext.
  unfold id_test in Hnext. rewrite Hnext. reflexivity.
Qed.

Lemma get_user_details_record_without_id_witness :
  0 <= 3 /\
  get_user_details
    {| users := [alice; PDict [("name", PStr "Dan")]; charlie];
       products := [] |} 3
  = Err (new_exn KeyError "id").
Proof.
  split; [lia|].
  exact (get_user_details_record_without_id
           {| users := [alice; PDict [("name", PStr "Dan")]; charlie];
              products := [] |} 3 [alice] [charlie]
           (PDict [("name", PStr "Dan")]) ltac:(lia) eq_refl eq_refl eq_refl).
Defined.

End UserDetails.

(** ** get_product_by_id on any store *)

Section ProductById.
Import DataProcessorServer Spec ServerSpec MoreSpec.

Lemma available_ids (R : Type) (product_id : Z) (xs : list pyval) :
  forallb (other_id product_id) xs = true ->
  Gen.map_each (R := R) (fun p => Py.getitem_key p "id") xs
    = Normal (map id_of xs).
Proof.
  intros Hall. apply map_each_map. rewrite Forall_forall.
  rewrite forallb_forall in Hall. intros x Hx.
  apply (other_id_id_of product_id), Hall, Hx.
Qed.

(** X5.  What [get_product_by_id] does on any store, for any identifier, is
    one of three things, decided by the first product that either has the
    identifier or has none at all: it returns that product as it is stored;
    or, every product having another identifier, it returns the payload with
    the error text and the identifiers of all the products in the order of
    the store; or it raises what the lookup of [id] raises on that record,
    which nothing in the resource catches. *)
Theorem get_product_by_id_any_store (data : store) (product_id : Z) :
  (exists pre p post,
     products data = (pre ++ p :: post)%list /\
     forallb (other_id product_id) pre = true /\
     has_id product_id p = true /\
     get_product_by_id data product_id = Ok p) \/
  (forallb (other_id product_id) (products data) = true /\
   get_product_by_id data product_id
     = Ok (not_found_payload product_id (map id_of (products data)))) \/
  (exists pre p post e,
     products data = (pre ++ p :: post)%list /\
     forallb (other_id product_id) pre = true /\
     Py.getitem_key (R := pyval) p "id" = Raised e /\
     get_product_by_id data product_id = Err e).
Proof.
  unfold get_product_by_id.
  destruct (next_or_None_cases (R := pyval) (id_test product_id)
              (products data) (id_test_not_Returned product_id))
    as [(pre & u & post & Hxs & Hpre & Hu & Hn)
       |[[Hall Hn]|(pre & u & post & e & Hxs & Hpre & Hu & Hn)]];
    unfold id_test in Hn; rewrite Hn; cbn [bind].
  - left. exists pre, u, post.
    apply id_test_has in Hu. destruct (has_id_truthy _ _ Hu) as [d [-> Ht]].
    rewrite Ht. split; [exact Hxs|]. split; [|split; [exact Hu | reflexivity]].
    exact (forall_other_id_inv _ _ Hpre).
  - right. left. apply forall_other_id_inv in Hall. split; [exact Hall|].
    cbn [Py.truthy negb]. rewrite (available_ids _ product_id _ Hall).
    reflexivity.
  - right. right. exists pre, u, post, e.
    split; [exact Hxs|]. split; [exact (forall_other_id_inv _ _ Hpre)|].
    split; [exact (id_test_raises _ _ _ Hu) | reflexivity].
Qed.

(** X6.  In any store, when every product before a record has another
    identifier and the record has the identifier asked for,
    [get_product_by_id] returns the record as it is stored: of two products
    with the same identifier the first is the one returned. *)
Theorem get_product_by_id_first_match (data : store) (product_id : Z)
    (pre post : list pyval) (p : pyval) :
  products data = (pre ++ p :: post)%list ->
  forallb (other_id product_id) pre = true ->
  has_id product_id p = true ->
  get_product_by_id data product_id = Ok p.
Proof.
  intros Hxs Hpre Hp. unfold get_product_by_id. rewrite Hxs.
  pose proof (next_or_None_first (R := pyval) (id_test product_id) pre post
                p (forall_other_id _ _ Hpre) (proj1 (id_test_has _ _) Hp))
    as Hnext.
  unfold id_test in Hnext. rewrite Hnext. cbn [bind].
  destruct (has_id_truthy _ _ Hp) as [d [-> Ht]]. rewrite Ht. reflexivity.
Qed.

Lemma get_product_by_id_first_match_witness :
  get_product_by_id
    {| users := [];
       products := [laptop; PDict [("id", PBool true); ("name", PStr "One")];
                    PDict [("id", PInt 1)]] |} 1
  = Ok (PDict [("id", PBool true); ("name", PStr "One")]).
Proof.
  exact (get_product_by_id_first_match
           {| users := [];
              products := [laptop;
                           PDict [("id", PBool true); ("name", PStr "One")];
                           PDict [("id", PInt 1)]] |} 1
           [laptop] [PDict [("id", PInt 1)]]
           (PDict [("id", PBool true); ("name", PStr "One")])
           eq_refl eq_refl eq_refl).
Defined.

(** X7.  In any store whose products all have an identifier other than the
    one asked for, [get_product_by_id] raises nothing and returns the
    payload: the error text with the identifier, and the identifiers of all
    the products in the order of the store. *)
Theorem get_product_by_id_miss (data : store) (product_id : Z) :
  forallb (other_id product_id) (products data) = true ->
  get_product_by_id data product_id
    = Ok (not_found_payload product_id (map id_of (products data))).
Proof.
  intros Hall. unfold get_product_by_id.
  pose proof (next_or_None_none (R := pyval) (id_test product_id)
                (products data) (forall_other_id _ _ Hall)) as Hnext.
  unfold id_test in Hnext. rewrite Hnext. cbn [bind Py.truthy negb].
  rewrite (available_ids _ product_id _ Hall). reflexivity.
Qed.

Lemma get_product_by_id_miss_witness :
  get_product_by_id
    {| users := []; products := [PDict [("id", PStr "a")]; mouse] |} (-5)
  = Ok (PDict [("error", PStr "Product -5 not found");
               ("available_ids", PList [PStr "a"; PInt 102])]).
Proof.
  exact (get_product_by_id_miss
           {| users := []; products := [PDict [("id", PStr "a")]; mouse] |}
           (-5) eq_refl).
Defined.

End ProductById.

(** ** search_users on any store *)

Section SearchUsers.
Import DataProcessorServer Spec ServerSpec MoreSpec.

(** The test of the boolean matcher is the relation of the words. *)
Lemma user_matchesb_iff (q : string) (u : pyval) :
  user_matchesb q u = true <-> user_matches q u.
Proof.
  unfold user_matchesb, user_matches. rewrite orb_true_iff.
  assert (Hf : forall k,
             match str_field u k with
             | Some s => PyStr.contains (PyStr.lower q) (PyStr.lower s)
             | None => false
             end = true <->
             exists s, str_field u k = Some s /\ ci_substring q s).
  { intros k. destruct (str_field u k) as [s|].
    - rewrite contains_lower_spec. split.
      + intros H. eauto.
      + intros [s' [[= <-] H]]. exact H.
    - split; [discriminate | intros [s [H _]]; discriminate]. }
  rewrite !Hf. reflexivity.
Qed.

Lemma search_test_searchable (R : Type) (q : string) (u : pyval) :
  searchable q u = true ->
  search_test (R := R) (PyStr.lower q) u = Normal (user_matchesb q u).
Proof.
  unfold searchable, search_test, user_matchesb, str_field.
  destruct u as [| | | | | |d| | |]; try discriminate.
  cbn -[PyStr.contains PyStr.lower].
  destruct (Py.lookup "name" d) as [[| | | |n| | | | |]|]; try discriminate.
  cbn -[PyStr.contains PyStr.lower].
  destruct (PyStr.contains (PyStr.lower q) (PyStr.lower n)); [reflexivity|].
  cbn -[PyStr.contains PyStr.lower].
  destruct (Py.lookup "email" d) as [[| | | |m| | | | |]|]; try discriminate.
  reflexivity.
Qed.


(** X8.  On text within ASCII: in any store whose users all have a string
    under [name] and, unless that name contains the query, a string under
    [email], these strings within ASCII, [search_users] with a query within
    ASCII that is not empty returns, in the order of the store, the users
    whose name or email contains the query whatever the case of the letters,
    all of them and no other; a user whose name contains the query is kept
    with no look at the email.  (Beyond ASCII [str.lower] is not the
    [PyStr.lower] of the embedding, and nothing is stated.) *)
Theorem search_users_any_store (data : store) (q : string) :
  q <> "" ->
  ascii_text q = true ->
  forallb ascii_fields (users data) = true ->
  forallb (searchable q) (users data) = true ->
  search_users data q = Ok (PList (filter (user_matchesb q) (users data))) /\
  forall u, In u (filter (user_matchesb q) (users data)) <->
            In u (users data) /\ user_matches q u.
Proof.
  intros Hq%String.eqb_neq _ _ Hall. split.
  - unfold search_users. cbn [Py.truthy]. rewrite Hq. cbn [negb bind pass].
    change (Gen.filter_if _ (users data))
      with (Gen.filter_if (R := pyval) (search_test (PyStr.lower q))
              (users data)).
    rewrite (filter_if_filter _ (user_matchesb q)); [reflexivity|].
    rewrite Forall_forall. rewrite forallb_forall in Hall.
    intros u Hu. apply search_test_searchable, Hall, Hu.
  - intros u. rewrite filter_In, user_matchesb_iff. reflexivity.
Qed.

Lemma search_users_any_store_witness :
  let data :=
    {| users := [PDict [("name", PStr "Dan")];
                 PDict [("name", PStr "Eve"); ("email", PStr "eve@an.org")];
                 PDict [("name", PStr "Fay"); ("email", PStr "fay@x.org")]];
       products := [] |} in
  "AN" <> "" /\ ascii_text "AN" = true /\
  forallb ascii_fields (users data) = true /\
  forallb (searchable "AN") (users data) = true /\
  search_users data "AN"
  = Ok (PList [PDict [("name", PStr "Dan")];
               PDict [("name", PStr "Eve"); ("email", PStr "eve@an.org")]]).
Proof.
  intros data.
  assert (Hq : "AN" <> "") by discriminate.
  split; [exact Hq|]. split; [reflexivity|]. split; [reflexivity|].
  split; [reflexivity|].
  exact (proj1 (search_users_any_store data "AN" Hq eq_refl eq_refl eq_refl)).
Defined.



End SearchUsers.

(** ** What the tools raise *)

Section ToolErrors.
Import DataProcessorServer Spec ServerSpec MoreSpec.

(** A lookup by key raises [KeyError] with the key, or [TypeError]. *)
Lemma getitem_key_Raised (R : Type) (v : pyval) (k : string) (e : exn) :
  Py.getitem_key (R := R) v k = Raised e ->
  e = new_exn KeyError k \/ exn_class e = TypeError.
Proof.
  destruct v; simpl; unfold Py.not_subscriptable, raise;
    try (intros [= <-]; right; reflexivity).
  destruct (Py.lookup k entries); [discriminate|].
  intros [= <-]. left. reflexivity.
Qed.

(** On plain data, lowering a value that is not a string raises
    [AttributeError]. *)
Lemma lower_data (R : Type) (v : pyval) :
  is_data v = true ->
  (exists s, Py.lower (R := R) v = Normal (PStr s)) \/
  (exists e, Py.lower (R := R) v = Raised e /\ exn_class e = AttributeError).
Proof.
  destruct v; simpl; try discriminate; intros _;
    try (right; eexists; split; reflexivity).
  left. eauto.
Qed.

Lemma field_test_data (R : Type) (ql k : string) (u : pyval) (e : exn) :
  is_data u = true ->
  bind (Py.getitem_key (R := R) u k) (fun v =>
    bind (Py.lower v) (fun lowered => Py.str_in ql lowered)) = Raised e ->
  In (exn_class e) [KeyError; TypeError; AttributeError].
Proof.
  intros Hu. destruct (Py.getitem_key u k) as [v|r|e0] eqn:Hk; simpl;
    try discriminate.
  - assert (Hv : is_data v = true).
    { destruct u; simpl in Hk; try discriminate.
      destruct (Py.lookup k entries) eqn:Hl; [|discriminate].
      injection Hk as ->. eapply lookup_is_data; eauto. }
    destruct (lower_data R v Hv) as [[s ->]|[e0 [-> Hc]]]; simpl.
    + discriminate.
    + intros [= <-]. rewrite Hc. simpl. auto.
  - intros [= <-]. destruct (getitem_key_Raised _ _ _ _ Hk) as [->| ->];
      simpl; auto.
Qed.

Lemma search_test_data (R : Type) (ql : string) (u : pyval) (e : exn) :
  is_data u = true ->
  search_test (R := R) ql u = Raised e ->
  In (exn_class e) [KeyError; TypeError; AttributeError].
Proof.
  intros Hu. unfold search_test.
  match goal with
  | |- bind ?c _ = _ -> _ => destruct c as [[|]|r|e0] eqn:Hc
  end; simpl; try discriminate.
  - apply field_test_data, Hu.
  - intros [= <-]. eapply field_test_data; eauto.
Qed.

(** X10.  On a store of plain data, the only [ValueError] of
    [search_users] is the one of the empty query; with any other query
    whatever it raises is a [RuntimeError] whose text is the prefix of the
    handler followed by the text of a [KeyError] (a record without the
    field), a [TypeError] (a record that is no dictionary) or an
    [AttributeError] (a field that is no string). *)
Theorem search_users_errors (data : store) (q : string) (e : exn) :
  forallb is_data (users data) = true ->
  search_users data q = Err e ->
  (q = "" /\ e = new_exn ValueError "Query must be a non-empty string") \/
  (q <> "" /\ exists e0,
     In (exn_class e0) [KeyError; TypeError; AttributeError] /\
     e = new_exn RuntimeError ("Search failed: " ++ exn_msg e0)).
Proof.
  intros Hdata Hcall. unfold search_users in Hcall.
  apply def_try2_Err in Hcall. destruct Hcall as [e0 [Hbody Hcases]].
  cbn [Py.truthy] in Hbody.
  destruct (String.eqb q "") eqn:Hq.
  - apply String.eqb_eq in Hq. left. split; [exact Hq|].
    cbn in Hbody. injection Hbody as <-.
    destruct Hcases as [[_ ->]|[H _]]; [reflexivity | discriminate].
  - apply String.eqb_neq in Hq. right. split; [exact Hq|].
    cbn [negb bind pass] in Hbody.
    change (Gen.filter_if _ (users data))
      with (Gen.filter_if (R := pyval) (search_test (PyStr.lower q))
              (users data)) in Hbody.
    destruct (Gen.filter_if _ (users data)) as [l|r|e1] eqn:Hl;
      try discriminate.
    cbn [bind] in Hbody. injection Hbody as ->.
    destruct (filter_if_Raised_inv _ _ _ Hl) as [u [Hu Hraise]].
    rewrite forallb_forall in Hdata.
    pose proof (search_test_data _ _ _ _ (Hdata u Hu) Hraise) as Hclass.
    exists e0. split; [exact Hclass|].
    destruct Hcases as [[Hm _]|[_ ->]]; [|reflexivity].
    unfold matches in Hm. simpl in Hm, Hclass.
    destruct Hclass as [H|[H|[H|[]]]]; rewrite <- H in Hm; discriminate.
Qed.

Lemma search_users_errors_witness :
  let data :=
    {| users := [PDict [("name", PInt 7); ("email", PStr "seven@x.org")]];
       products := [] |} in
  let e := new_exn RuntimeError
             "Search failed: 'int' object has no attribute 'lower'" in
  forallb is_data (users data) = true /\
  search_users data "seven" = Err e /\
  (("seven" = "" /\
    e = new_exn ValueError "Query must be a non-empty string") \/
   ("seven" <> "" /\ exists e0,
      In (exn_class e0) [KeyError; TypeError; AttributeError] /\
      e = new_exn RuntimeError ("Search failed: " ++ exn_msg e0))).
Proof.
  intros data e.
  assert (Hdata : forallb is_data (users data) = true) by reflexivity.
  assert (H : search_users data "seven" = Err e) by (vm_compute; reflexivity).
  split; [exact Hdata|]. split; [exact H|].
  exact (search_users_errors data "seven" e Hdata H).
Defined.

(** X11.  Whatever the store holds, what [get_user_details] raises is one
    of four things: the [ValueError] of a negative identifier; the
    [KeyError] of an identifier that no user has, every user having
    another; the [KeyError] of the lookup of [id] on a record without it,
    met before any user with the identifier, which the handler lets through
    as it is; or the [RuntimeError] that wraps the [TypeError] of a record
    that is no dictionary. *)
Theorem get_user_details_errors (data : store) (user_id : Z) (e : exn) :
  get_user_details data user_id = Err e ->
  (user_id < 0 /\
   e = new_exn ValueError ("Invalid user_id: " ++ PyStr.of_int user_id)) \/
  (0 <= user_id /\ forallb (other_id user_id) (users data) = true /\
   e = new_exn KeyError
         ("User with id " ++ PyStr.of_int user_id ++ " not found")) \/
  (0 <= user_id /\ exists pre u post e0,
     users data = (pre ++ u :: post)%list /\
     forallb (other_id user_id) pre = true /\
     Py.getitem_key (R := pyval) u "id" = Raised e0 /\
     ((e0 = new_exn KeyError "id" /\ e = e0) \/
      (exn_class e0 = TypeError /\
       e = new_exn RuntimeError
             ("Failed to retrieve user: " ++ exn_msg e0)))).
Proof.
  unfold get_user_details. intros Hcall.
  apply def_try2_Err in Hcall. destruct Hcall as [e0 [Hbody Hcases]].
  destruct (user_id <? 0) eqn:Hneg.
  - apply Z.ltb_lt in Hneg. left. split; [exact Hneg|].
    cbn in Hbody. injection Hbody as <-.
    destruct Hcases as [[_ ->]|[H _]]; [reflexivity | discriminate].
  - apply Z.ltb_ge in Hneg. right. cbn [bind pass] in Hbody.
    destruct (next_or_None_cases (R := pyval) (id_test user_id)
                (users data) (id_test_not_Returned user_id))
      as [(pre & u & post & Hxs & Hpre & Hu & Hn)
         |[[Hall Hn]|(pre & u & post & e1 & Hxs & Hpre & Hu & Hn)]];
      unfold id_test in Hn; rewrite Hn in Hbody; cbn [bind] in Hbody.
    + apply id_test_has in Hu. destruct (has_id_truthy _ _ Hu) as [d [-> Ht]].
      rewrite Ht in Hbody. discriminate.
    + left. split; [exact Hneg|].
      split; [exact (forall_other_id_inv _ _ Hall)|].
      cbn in Hbody. injection Hbody as <-.
      destruct Hcases as [[_ ->]|[H _]]; [reflexivity | discriminate].
    + right. split; [exact Hneg|]. injection Hbody as ->.
      apply id_test_raises in Hu.
      exists pre, u, post, e0. split; [exact Hxs|].
      split; [exact (forall_other_id_inv _ _ Hpre)|]. split; [exact Hu|].
      destruct (getitem_key_Raised _ _ _ _ Hu) as [He|He].
      * left. split; [exact He|]. subst e0.
        destruct Hcases as [[_ ->]|[H _]]; [reflexivity | discriminate].
      * right. split; [exact He|].
        destruct Hcases as [[H _]|[_ ->]]; [|reflexivity].
        unfold matches in H. simpl in H. rewrite He in H. discriminate.
Qed.

Lemma get_user_details_errors_witness :
  let data := {| users := [alice; PList [PInt 2]]; products := [] |} in
  get_user_details data 2
  = Err (new_exn RuntimeError
           "Failed to retrieve user: list indices must be integers or slices, not str")
  /\
  exists pre u post e0,
    users data = (pre ++ u :: post)%list /\
    forallb (other_id 2) pre = true /\
    Py.getitem_key (R := pyval) u "id" = Raised e0 /\
    exn_class e0 = TypeError.
Proof.
  intros data.
  assert (H : get_user_details data 2
              = Err (new_exn RuntimeError
                       "Failed to retrieve user: list indices must be integers or slices, not str"))
    by (vm_compute; reflexivity).
  split; [exact H|].
  destruct (get_user_details_errors data 2 _ H)
    as [[Hn _]|[(_ & _ & He)|(_ & pre & u & post & e0 & Hxs & Hpre & Hu & Hk)]].
  - exfalso. lia.
  - discriminate He.
  - exists pre, u, post, e0. split; [exact Hxs|]. split; [exact Hpre|].
    split; [exact Hu|]. destruct Hk as [[-> He]|[Hc _]]; [discriminate He|].
    exact Hc.
Defined.

End ToolErrors.

(** ** calculate_average_product_price on any store *)

Section AveragePrice.
Import DataProcessorServer Spec ServerSpec MoreSpec.
Context {R : Type}.

Lemma no_return_bind {A B : Type} (c : outcome R A) (k : A -> outcome R B) :
  no_return c -> (forall a, no_return (k a)) -> no_return (bind c k).
Proof.
  intros Hc Hk r. destruct c as [a|r'|e]; simpl.
  - apply Hk.
  - now destruct (Hc r').
  - discriminate.
Qed.

Lemma no_return_getitem_key (v : pyval) (k : string) :
  no_return (Py.getitem_key (R := R) v k).
Proof.
  intros r. destruct v; simpl; try discriminate.
  destruct (Py.lookup k entries); discriminate.
Qed.

Lemma no_return_float_of_int (z : Z) :
  no_return (PyNum.float_of_int (R := R) z).
Proof.
  intros r. unfold PyNum.float_of_int.
  match goal with |- context [if ?c then _ else _] => destruct c end;
    discriminate.
Qed.

Lemma no_return_add (a b : pyval) : no_return (Py.add (R := R) a b).
Proof.
  intros r.
  destruct a, b; cbn -[PyNum.float_of_int];
    try (destruct b0); try (destruct b); try discriminate;
    apply no_return_bind; try apply no_return_float_of_int;
    intros y r'; discriminate.
Qed.

Lemma no_return_sum_from (f : pyval -> outcome R pyval) (xs : list pyval) :
  (forall x, no_return (f x)) ->
  forall acc, no_return (Gen.sum_from acc f xs).
Proof.
  intros Hf. induction xs as [|x xs IH]; intros acc; simpl.
  - intros r. discriminate.
  - apply no_return_bind; [apply Hf|]. intros y.
    apply no_return_bind; [apply no_return_add | apply IH].
Qed.

(** A true division that succeeds gives a float. *)
Lemma truediv_int_cases (a : pyval) (n : Z) :
  (exists f, Py.truediv_int (R := R) a n = Normal (PFloat f)) \/
  (exists e, Py.truediv_int (R := R) a n = Raised e).
Proof.
  destruct a; cbn -[PyNum.float_of_int PyNum.float_of_ratio];
    unfold PyNum.float_of_int, raise;
    repeat match goal with
           | |- context [if ?c then _ else _] => destruct c; simpl
           end; eauto.
Qed.

(** The sum of prices that are floats is a float, or the start for no
    price. *)
Lemma sum_from_float_priced (xs : list pyval) (acc : pyval) :
  acc = PInt 0 \/ (exists x, acc = PFloat x) ->
  forallb float_priced xs = true ->
  exists total,
    Gen.sum_from (R := R) acc (fun p => Py.getitem_key p "price") xs
      = Normal total /\
    (total = PInt 0 \/ exists x, total = PFloat x).
Proof.
  revert acc. induction xs as [|p xs IH]; intros acc Hacc Hall; simpl.
  - eauto.
  - simpl in Hall. apply andb_true_iff in Hall. destruct Hall as [Hp Hxs].
    unfold float_priced in Hp. destruct p; try discriminate.
    simpl. destruct (Py.lookup "price" entries) as [[| | |y| | | | | |]|];
      try discriminate.
    simpl. destruct Hacc as [->|[x ->]].
    + apply IH; [|exact Hxs]. right. eauto.
    + apply IH; [|exact Hxs]. right. eauto.
Qed.

Lemma sum_from_raises (pre post : list pyval) (p : pyval) (e : exn)
    (acc : pyval) :
  acc = PInt 0 \/ (exists x, acc = PFloat x) ->
  forallb float_priced pre = true ->
  Py.getitem_key (R := R) p "price" = Raised e ->
  Gen.sum_from (R := R) acc (fun p => Py.getitem_key p "price")
    (pre ++ p :: post) = Raised e.
Proof.
  revert acc. induction pre as [|q pre IH]; intros acc Hacc Hall Hp; simpl.
  - rewrite Hp. reflexivity.
  - simpl in Hall. apply andb_true_iff in Hall. destruct Hall as [Hq Hpre].
    unfold float_priced in Hq. destruct q; try discriminate.
    simpl. destruct (Py.lookup "price" entries) as [[| | |y| | | | | |]|];
      try discriminate.
    simpl. destruct Hacc as [->|[x ->]].
    + apply IH; [right; eauto | exact Hpre | exact Hp].
    + apply IH; [right; eauto | exact Hpre | exact Hp].
Qed.

End AveragePrice.

Section AveragePriceTool.
Import DataProcessorServer Spec ServerSpec MoreSpec.

(** X12.  Whatever the store holds, what
    [calculate_average_product_price] returns is a float rounded to two
    decimals, and the store then has a product: no store makes it return an
    integer, a string or [None]. *)
Theorem calculate_average_product_price_float (data : store) (r : pyval) :
  calculate_average_product_price data = Ok r ->
  products data <> [] /\ exists f, r = PFloat (PyNum.round f 2).
Proof.
  unfold calculate_average_product_price. intros Hcall.
  apply def_try2_Ok in Hcall.
  destruct (products data) as [|p ps] eqn:Hp; [discriminate|].
  split; [discriminate|]. cbn [Py.truthy negb bind pass] in Hcall.
  destruct (Gen.sum _ (p :: ps)) as [total|r'|e] eqn:Hsum; try discriminate.
  - cbn [bind] in Hcall.
    destruct (truediv_int_cases (R := pyval) total
                (Z.of_nat (List.length (p :: ps)))) as [[f Hf]|[e Hf]];
      rewrite Hf in Hcall; [|discriminate].
    cbn in Hcall. injection Hcall as <-. eauto.
  - exfalso. unfold Gen.sum in Hsum.
    exact (no_return_sum_from _ _
             (fun x => no_return_getitem_key x "price") _ _ Hsum).
Qed.

Lemma calculate_average_product_price_float_witness :
  let data := {| users := [];
                 products := [PDict [("price", PInt 1)];
                              PDict [("price", PBool true)];
                              PDict [("price", PInt 2)]] |} in
  calculate_average_product_price data = Ok (PFloat 1.33) /\
  products data <> [] /\ exists f, PFloat 1.33 = PFloat (PyNum.round f 2).
Proof.
  intros data.
  assert (H : calculate_average_product_price data = Ok (PFloat 1.33))
    by (vm_compute; reflexivity).
  split; [exact H|].
  exact (calculate_average_product_price_float data (PFloat 1.33) H).
Defined.

(** X13.  Whatever the store holds, what
    [calculate_average_product_price] raises is the [ValueError] of a store
    with no product, with its text, or, the store having a product, a
    [RuntimeError] whose text is the prefix of the handler followed by the
    text of an exception that is no [ValueError]. *)
Theorem calculate_average_product_price_errors (data : store) (e : exn) :
  calculate_average_product_price data = Err e ->
  (products data = [] /\ e = new_exn ValueError "No products in store") \/
  (products data <> [] /\ exists e0,
     is_a ValueError e0 = false /\
     e = new_exn RuntimeError ("Price calculation failed: " ++ exn_msg e0)).
Proof.
  unfold calculate_average_product_price. intros Hcall.
  apply def_try2_Err in Hcall. destruct Hcall as [e0 [Hbody Hcases]].
  destruct (products data) as [|p ps] eqn:Hp.
  - left. split; [reflexivity|]. cbn in Hbody. injection Hbody as <-.
    destruct Hcases as [[_ ->]|[H _]]; [reflexivity | discriminate].
  - right. split; [discriminate|]. cbn [Py.truthy negb bind pass] in Hbody.
    assert (Hclass : is_a ValueError e0 = false).
    { revert Hbody. generalize e0.
      change (no_ValueError
                (total <- Gen.sum (fun p0 => Py.getitem_key p0 "price")
                            (p :: ps) ;;
                 average <- Py.truediv_int total
                              (Z.of_nat (List.length (p :: ps))) ;;
                 rounded <- Py.round average 2 ;;
                 return_ (A := Empty_set) rounded)%py).
      apply no_ValueError_bind;
        [apply no_ValueError_sum_from; intros x;
         apply no_ValueError_getitem_key|].
      intros total.
      apply no_ValueError_bind; [apply no_ValueError_truediv_int|].
      intros average. apply no_ValueError_bind; [apply no_ValueError_round|].
      intros rounded. apply no_ValueError_Returned. }
    exists e0. split; [exact Hclass|].
    destruct Hcases as [[Hm _]|[_ ->]]; [|reflexivity].
    unfold matches in Hm. unfold is_a in Hclass. simpl in Hm, Hclass.
    rewrite Hclass in Hm. discriminate.
Qed.

Lemma calculate_average_product_price_errors_witness :
  let data := {| users := [];
                 products := [PDict [("price", PStr "9.99")]] |} in
  let e := new_exn RuntimeError
             "Price calculation failed: unsupported operand type(s) for +: 'int' and 'str'" in
  calculate_average_product_price data = Err e /\
  ((products data = [] /\ e = new_exn ValueError "No products in store") \/
   (products data <> [] /\ exists e0,
      is_a ValueError e0 = false /\
      e = new_exn RuntimeError ("Price calculation failed: " ++ exn_msg e0))).
Proof.
  intros data e.
  assert (H : calculate_average_product_price data = Err e)
    by (vm_compute; reflexivity).
  split; [exact H|].
  exact (calculate_average_product_price_errors data e H).
Defined.

(** X14.  A product record with no [price], met after products whose price
    is a float, makes [calculate_average_product_price] raise
    [RuntimeError] with the prefix of the handler and the quoted key: the
    missing field is not reported as a [KeyError]. *)
Theorem calculate_average_product_price_without_price (data : store)
    (pre post : list pyval) (p : pyval) :
  products data = (pre ++ p :: post)%list ->
  forallb float_priced pre = true ->
  lacks_key "price" p = true ->
  calculate_average_product_price data
    = Err (new_exn RuntimeError "Price calculation failed: 'price'").
Proof.
  intros Hxs Hpre Hp. unfold calculate_average_product_price. rewrite Hxs.
  assert (Htruthy : Py.truthy (PList (pre ++ p :: post)) = true)
    by (destruct pre; reflexivity).
  rewrite Htruthy. cbn [negb bind pass]. unfold Gen.sum.
  rewrite (sum_from_raises (R := pyval) pre post p (new_exn KeyError "price")).
  - reflexivity.
  - left. reflexivity.
  - exact Hpre.
  - unfold lacks_key, Py.has_key in Hp. destruct p; try discriminate. simpl.
    destruct (Py.lookup "price" entries); [discriminate | reflexivity].
Qed.

Lemma calculate_average_product_price_without_price_witness :
  calculate_average_product_price
    {| users := [];
       products := [laptop; PDict [("id", PInt 7); ("name", PStr "Cable")];
                    mouse] |}
  = Err (new_exn RuntimeError "Price calculation failed: 'price'").
Proof.
  exact (calculate_average_product_price_without_price
           {| users := [];
              products := [laptop;
                           PDict [("id", PInt 7); ("name", PStr "Cable")];
                           mouse] |}
           [laptop] [mouse] (PDict [("id", PInt 7); ("name", PStr "Cable")])
           eq_refl eq_refl eq_refl).
Defined.

End AveragePriceTool.

(** ** search_users and get_user_count *)

Section SearchAndCount.
Import DataProcessorServer Spec ServerSpec MoreSpec.

Lemma no_return_lower (R : Type) (v : pyval) : no_return (Py.lower (R := R) v).
Proof.
  intros r. destruct v; simpl; try discriminate.
  destruct (Py.lookup "lower" attrs) as [f|]; simpl; [|discriminate].
  destruct f; discriminate.
Qed.

Lemma no_return_str_in (R : Type) (needle : string) (v : pyval) :
  no_return (Py.str_in (R := R) needle v).
Proof. intros r. destruct v; discriminate. Qed.

Lemma no_return_search_test (R : Type) (ql : string) (u : pyval) :
  no_return (search_test (R := R) ql u).
Proof.
  assert (Hfield : forall k,
             no_return
               (bind (Py.getitem_key (R := R) u k) (fun v =>
                  bind (Py.lower v) (fun lowered => Py.str_in ql lowered)))).
  { intros k. apply no_return_bind; [apply no_return_getitem_key|].
    intros v. apply no_return_bind; [apply no_return_lower|].
    intros lowered. apply no_return_str_in. }
  unfold search_test. apply no_return_bind; [apply Hfield|].
  intros [|]; [intros r; discriminate | apply Hfield].
Qed.

(** X15.  Whatever the store holds, what [search_users] returns is a list
    of stored users in the order of the store, each one at most as often as
    the store holds it, and the query then is not empty: the list is never
    longer than the count [get_user_count] reports for the same store. *)
Theorem search_users_within_count (data : store) (q : string) (r : pyval) :
  search_users data q = Ok r ->
  q <> "" /\
  exists keep n,
    r = PList (filter keep (users data)) /\
    get_user_count data = Ok (count_payload n) /\
    Z.of_nat (List.length (filter keep (users data))) <= n.
Proof.
  unfold search_users. intros Hcall. apply def_try2_Ok in Hcall.
  cbn [Py.truthy] in Hcall.
  destruct (String.eqb q "") eqn:Hq; [discriminate|].
  apply String.eqb_neq in Hq. split; [exact Hq|].
  cbn [negb bind pass] in Hcall.
  change (Gen.filter_if _ (users data))
    with (Gen.filter_if (R := pyval) (search_test (PyStr.lower q))
            (users data)) in Hcall.
  destruct (Gen.filter_if _ (users data)) as [l|r'|e] eqn:Hl;
    try discriminate.
  - cbn in Hcall. injection Hcall as <-.
    apply filter_if_inv in Hl. eexists. exists (Z.of_nat (List.length (users data))).
    split; [rewrite Hl; reflexivity|]. split; [reflexivity|].
    apply inj_le, filter_length_le.
  - exfalso.
    exact (filter_if_not_Returned _ _ _
             (fun x => no_return_search_test _ (PyStr.lower q) x) Hl).
Qed.

Lemma search_users_within_count_witness :
  search_users DATA_STORE "example" = Ok (PList [alice; bob; charlie]) /\
  "example" <> "" /\
  exists keep n,
    PList [alice; bob; charlie] = PList (filter keep (users DATA_STORE)) /\
    get_user_count DATA_STORE = Ok (count_payload n) /\
    Z.of_nat (List.length (filter keep (users DATA_STORE))) <= n.
Proof.
  assert (H : search_users DATA_STORE "example"
              = Ok (PList [alice; bob; charlie]))
    by (vm_compute; reflexivity).
  split; [exact H|].
  exact (search_users_within_count DATA_STORE "example" _ H).
Defined.

End SearchAndCount.

(** ** The calculator server *)

Section Calculator.
Import CalculatorServer CalculatorPrompts MoreSpec.

(** X16.  The only error [divide] ever yields is the [ValueError] of the
    guard, with its text, and the divisor then equals zero: the test before
    the division leaves nothing for the handler, so no call reports a
    [Division error]. *)
Theorem divide_error_is_the_guard (a b : float) (e : exn) :
  divide a b = Err e ->
  PrimFloat.eqb b zero = true /\
  e = new_exn ValueError "Cannot divide by zero".
Proof.
  unfold divide, truediv.
  destruct (PrimFloat.eqb b zero) eqn:Hb; cbn; [|discriminate].
  intros [= <-]. split; reflexivity.
Qed.

Lemma divide_error_is_the_guard_witness :
  divide nan 0 = Err (new_exn ValueError "Cannot divide by zero") /\
  PrimFloat.eqb 0 zero = true.
Proof.
  assert (H : divide nan 0 = Err (new_exn ValueError "Cannot divide by zero"))
    by reflexivity.
  split; [exact H|].
  exact (proj1 (divide_error_is_the_guard nan 0 _ H)).
Defined.

Lemma append_assoc (a b c : string) : ((a ++ b) ++ c = a ++ (b ++ c))%string.
Proof. induction a; simpl; congruence. Qed.

Lemma append_nonempty (a b : string) : b <> "" -> (a ++ b)%string <> "".
Proof. destruct a; simpl; [auto | discriminate]. Qed.

(** Stripping on the right leaves what comes before the last character
    that is no whitespace. *)
Lemma rstrip_app (a b : string) :
  rstrip b <> "" -> rstrip (a ++ b) = (a ++ rstrip b)%string.
Proof.
  intros Hb. induction a as [|c a IH]; simpl; [reflexivity|].
  rewrite IH.
  destruct (a ++ rstrip b)%string eqn:Hab; [|reflexivity].
  now destruct (append_nonempty a (rstrip b) Hb).
Qed.

Lemma lstrip_space (c : ascii) (s : string) :
  is_space c = true -> lstrip (String c s) = lstrip s.
Proof. intros H. simpl. rewrite H. reflexivity. Qed.

Lemma lstrip_text (c : ascii) (s : string) :
  is_space c = false -> lstrip (String c s) = String c s.
Proof. intros H. simpl. rewrite H. reflexivity. Qed.

(** X17.  For every expression, whatever its characters, the prompt of
    [calculate_expression] is the fixed opening, the expression as it was
    given, and the fixed instructions: stripping removes the end of line and
    the indentation the template starts with and the indentation it ends
    with, and nothing of the expression, not even whitespace at its ends. *)
Theorem calculate_expression_verbatim (expression : string) :
  calculate_expression expression
    = Ok (prompt_head ++ expression ++ prompt_tail)%string.
Proof.
  assert (Htail : rstrip (prompt_tail ++ nl ++ "    ") = prompt_tail)
    by (vm_compute; reflexivity).
  assert (Hne : prompt_tail <> "") by discriminate.
  unfold calculate_expression, return_, def, line, strip. f_equal.
  rewrite !append_assoc. cbn [append nl].
  rewrite !lstrip_space by reflexivity. rewrite lstrip_text by reflexivity.
  change (rstrip (prompt_head ++ expression ++ prompt_tail ++ nl ++ "    ")
          = (prompt_head ++ expression ++ prompt_tail)%string).
  rewrite rstrip_app.
  - rewrite rstrip_app; rewrite Htail; [reflexivity | exact Hne].
  - rewrite rstrip_app; rewrite Htail; [|exact Hne].
    apply append_nonempty, Hne.
Qed.

End Calculator.

(** ** More about the unwrapper *)

Section ClientMore.
Context {L : PyLib}.
Import CalculatorClient Spec.

(** X18.  The unwrapper reads the first content item and nothing else of
    the envelope: two envelopes with the same first item, whatever their
    class, their other items and their other attributes, are unwrapped to
    the same value, unless each is returned as it is. *)
Theorem extract_tool_result_first_item_only (r1 r2 item : pyval) :
  first_item r1 = Some item ->
  first_item r2 = Some item ->
  (extract_tool_result r1 = Ok r1 /\ extract_tool_result r2 = Ok r2) \/
  extract_tool_result r1 = extract_tool_result r2.
Proof.
  intros H1 H2. rewrite !extract_tool_result_unwrap. unfold unwrap.
  rewrite H1, H2.
  destruct (non_null_text item) as [t|].
  - destruct (text_result t); auto.
  - destruct (attr item "json") as [accessor|]; auto.
    destruct (json_result accessor); auto.
Qed.

(** X19.  A first content item whose text is a boolean, a number, a list
    or a dictionary (plain data that is neither [None] nor a string) makes
    the unwrapper return the envelope: the text branch is entered, the
    parser refuses the value with an exception that is no decode error, and
    the [json] accessor of the item, if it has one, is not consulted.  (A
    text of bytes, which the parser accepts, is no plain data of [pyval] and
    nothing is stated about it.) *)
Theorem extract_tool_result_text_not_string (response item t : pyval) :
  first_item response = Some item ->
  attr item "text" = Some t ->
  is_data t = true ->
  Py.is_None t = false ->
  Py.isinstance_str t = false ->
  extract_tool_result response = Ok response.
Proof.
  intros Hi Ht _ Hnone Hstr. rewrite extract_tool_result_unwrap. unfold unwrap.
  rewrite Hi. unfold non_null_text. rewrite Ht.
  destruct t; try discriminate; reflexivity.
Qed.

(** Parsed documents are plain data at every depth. *)
Lemma of_json_is_data : forall j : json, is_data (of_json j) = true.
Proof.
  fix IH 1. intros [ | | | | |items|entries]; simpl; try reflexivity.
  - induction items as [|x xs IHxs]; simpl; [reflexivity|].
    rewrite IH, IHxs. reflexivity.
  - induction entries as [|[k v] es IHes]; simpl; [reflexivity|].
    rewrite IH, IHes. reflexivity.
Qed.

Lemma dict_get_is_data (k : string) (d : list (string * pyval)) :
  is_data (PDict d) = true -> is_data (Py.dict_get k d) = true.
Proof.
  simpl. intros Hd. unfold Py.dict_get.
  destruct (Py.lookup k d) as [x|] eqn:Hx; [|reflexivity].
  eapply lookup_is_data; eauto.
Qed.

Lemma coerce_number_is_data (s : string) : is_data (coerce_number s) = true.
Proof.
  unfold coerce_number.
  destruct (PyStr.contains "." s);
    [destruct (float_of_str s) | destruct (int_of_str s)]; reflexivity.
Qed.

Lemma result_or_self_is_data (v : pyval) :
  is_data v = true -> is_data (result_or_self v) = true.
Proof.
  intros Hv. destruct v; try exact Hv. unfold result_or_self.
  destruct (Py.has_key "result" entries); [|exact Hv].
  apply dict_get_is_data, Hv.
Qed.

Lemma select_and_coerce_is_data (v : pyval) :
  is_data v = true -> is_data (select_and_coerce v) = true.
Proof.
  intros Hv. destruct v as [ | | | | | |d| | | ]; try exact Hv.
  assert (Hc : is_data (candidate d) = true).
  { unfold candidate.
    destruct (Py.has_key "result" d); [apply dict_get_is_data, Hv|].
    destruct (Py.has_key "text" d); [apply dict_get_is_data, Hv | exact Hv]. }
  unfold select_and_coerce.
  destruct (candidate d); try exact Hc. apply coerce_number_is_data.
Qed.

Lemma text_result_is_data (t v : pyval) :
  text_result t = Some v -> is_data v = true.
Proof.
  unfold text_result. destruct t; try discriminate.
  destruct (json_decode s) as [j|e].
  - intros [= <-]. apply result_or_self_is_data, of_json_is_data.
  - destruct (is_decode_error e); [|discriminate].
    intros [= <-]. apply coerce_number_is_data.
Qed.

Lemma json_result_is_data (accessor v : pyval) :
  (Py.callable accessor = false -> is_data accessor = true) ->
  json_result accessor = Some v -> is_data v = true.
Proof.
  intros Hplain. unfold json_result.
  destruct accessor as [ | | | | | |entries| |ret|e];
    try (intros Hv;
         match type of Hv with
         | Some ?x = _ => replace v with x by congruence
         end;
         apply select_and_coerce_is_data, Hplain; reflexivity);
    try discriminate.
  destruct ret; try discriminate.
  destruct (json_decode s) as [j|e].
  - intros [= <-]. apply select_and_coerce_is_data, of_json_is_data.
  - destruct (is_decode_error e); [|discriminate].
    intros [= <-]. reflexivity.
Qed.

(** X20.  On an envelope whose pre-computed [json] value, where the first
    content item has one, is plain data, what the unwrapper returns is the
    envelope itself or plain data at every depth: numbers, strings,
    booleans, [None], and lists and dictionaries of these, with no object
    and no callable inside. *)
Theorem extract_tool_result_plain_data (response : pyval) :
  plain_json_value response ->
  exists v, extract_tool_result response = Ok v /\
            (v = response \/ is_data v = true).
Proof.
  intros Hplain. exists (unwrap response).
  split; [apply extract_tool_result_unwrap|]. unfold unwrap.
  destruct (first_item response) as [item|] eqn:Hi; [|now left].
  destruct (non_null_text item) as [t|].
  - destruct (text_result t) as [v|] eqn:Hv; [right | now left].
    eapply text_result_is_data; eauto.
  - destruct (attr item "json") as [accessor|] eqn:Hj; [|now left].
    destruct (json_result accessor) as [v|] eqn:Hv; [right | now left].
    eapply json_result_is_data; eauto.
Qed.

End ClientMore.

Lemma extract_tool_result_first_item_only_witness :
  let item := PObject "TextContent" [("type", PStr "text"); ("text", PStr "8")] in
  let r1 := PObject "CallToolResult" [("content", PList [item])] in
  let r2 := PObject "Reply"
              [("isError", PBool true);
               ("content", PList [item; PObject "TextContent" [("text", PStr "9")]])] in
  Spec.first_item r1 = Some item /\ Spec.first_item r2 = Some item /\
  CalculatorClient.extract_tool_result r1 = Ok (PInt 8) /\
  CalculatorClient.extract_tool_result r2 = Ok (PInt 8).
Proof.
  intros item r1 r2.
  assert (H1 : Spec.first_item r1 = Some item) by reflexivity.
  assert (H2 : Spec.first_item r2 = Some item) by reflexivity.
  assert (E1 : CalculatorClient.extract_tool_result r1 = Ok (PInt 8))
    by (vm_compute; reflexivity).
  split; [exact H1|]. split; [exact H2|]. split; [exact E1|].
  destruct (extract_tool_result_first_item_only r1 r2 item H1 H2)
    as [[E _]|E].
  - rewrite E1 in E. discriminate E.
  - rewrite <- E. exact E1.
Defined.

Lemma extract_tool_result_text_not_string_witness :
  let item := PObject "Content" [("text", PInt 5);
                                 ("json", PDict [("result", PInt 1)])] in
  let response := PObject "CallToolResult" [("content", PList [item])] in
  Spec.first_item response = Some item /\
  CalculatorClient.extract_tool_result response = Ok response.
Proof.
  intros item response.
  assert (Hi : Spec.first_item response = Some item) by reflexivity.
  split; [exact Hi|].
  exact (extract_tool_result_text_not_string response item (PInt 5)
           Hi eq_refl eq_refl eq_refl eq_refl).
Defined.

Lemma extract_tool_result_plain_data_witness :
  let response :=
    Spec.item_envelope
      [("json", PDict [("result", PList [PInt 1; PStr "2"])])] in
  Spec.plain_json_value response /\
  exists v, CalculatorClient.extract_tool_result response = Ok v /\
            (v = response \/ Spec.is_data v = true).
Proof.
  intros response.
  assert (H : Spec.plain_json_value response).
  { intros item v [= <-] [= <-] _. reflexivity. }
  split; [exact H|].
  exact (extract_tool_result_plain_data response H).
Defined.
